(** * files_finder_by_date.py: a shallow embedding of [FilesFinderByDate]

    The class finds the files of a directory tree whose modification,
    creation or access time lies in a date window, appends one line per
    match to a report file and, on request, writes two sorted reports.

    Conventions of the embedding:
    - A Python [str] is the [string] of the bytes of its UTF-8 encoding:
      equality, concatenation, [startswith], the search for ['.'] and
      ['/'] and the order of two strings are the same on the bytes as on
      the characters.  [str.lower] lowers the ASCII letters itself and
      takes the lower-case form of every other character from the
      library.  The one slice counted from the end, [starting_text[:-67]],
      cuts the 67 ASCII characters of the column legend, which are 67
      bytes.
    - File times ([os.path.getmtime] and the like) and
      [datetime.timestamp()] are numbers of clock ticks in [Z]; the code
      only compares them and prints them.
    - A [datetime] keeps its date as the proleptic Gregorian ordinal
      ([date.toordinal()]), which is how [datetime - timedelta] computes.
    - Library functions whose text is not part of the repository
      ([strptime], [time.ctime], [str(datetime)], [timestamp],
      [os.path.normpath], the Unicode case tables, the directory
      [os.getcwd] names after [os.chdir]) are the fields of the class
      [PyLib].
    - The file system is the map from the paths of regular files to their
      contents, with the working directory; what [os.walk] and the [stat]
      calls observe is an input of the traversal.  Failures of the
      operating system and of the library on values out of its range (a
      missing directory, permissions, a full disk, a name the report's
      encoding cannot take, a date [timestamp()] or [time.ctime] cannot
      handle) are outside the model: what is proved of a run holds when
      none of them occurs. *)

From Stdlib Require Import ZArith Lia List Ascii String Sorted Permutation.
From stdpp Require Import gmap strings list pretty.

Open Scope string_scope.
Open Scope Z_scope.

(** ** Strings *)

Definition nl : string := String (ascii_of_nat 10) "".

Definition is_upper (c : ascii) : bool :=
  (65 <=? nat_of_ascii c)%nat && (nat_of_ascii c <=? 90)%nat.

Definition lower_ascii (c : ascii) : ascii :=
  if is_upper c then ascii_of_nat (nat_of_ascii c + 32) else c.

(** The lower-case form of a string of ASCII characters. *)
Fixpoint ascii_lower (s : string) : string :=
  match s with
  | EmptyString => EmptyString
  | String c s' => String (lower_ascii c) (ascii_lower s')
  end.

(** The bytes below 128 are the ASCII characters; a byte from 192 on
    begins the encoding of another character and the bytes from 128 to 191
    continue it. *)
Definition is_ascii_char (c : ascii) : bool := (nat_of_ascii c <? 128)%nat.

Definition is_continuation (c : ascii) : bool := (nat_of_ascii c <? 192)%nat.

(** A string of ASCII characters only. *)
Fixpoint is_ascii (s : string) : bool :=
  match s with
  | EmptyString => true
  | String c s' => is_ascii_char c && is_ascii s'
  end.

(** Two ASCII characters that are the same or the two cases of one
    letter. *)
Definition case_pair (c d : ascii) : bool :=
  Ascii.eqb c d
  || (is_upper c && Ascii.eqb d (ascii_of_nat (nat_of_ascii c + 32)))
  || (is_upper d && Ascii.eqb c (ascii_of_nat (nat_of_ascii d + 32))).

(** Two strings that differ at most in the case of their letters. *)
Fixpoint case_variant (s t : string) : bool :=
  match s, t with
  | EmptyString, EmptyString => true
  | String c s', String d t' => case_pair c d && case_variant s' t'
  | _, _ => false
  end.

(** [s.startswith(p)] *)
Definition startswith (p s : string) : bool := String.prefix p s.

(** [s.endswith('/')] *)
Fixpoint endswith_sep (s : string) : bool :=
  match s with
  | EmptyString => false
  | String c EmptyString => Ascii.eqb c "/"
  | String _ s' => endswith_sep s'
  end.

(** [s[:-n]] for a positive [n]: everything but the last [n] characters,
    the empty string when [s] is shorter than that. *)
Definition drop_last (n : nat) (s : string) : string :=
  substring 0 (String.length s - n) s.

(** [sep.join(l)] *)
Fixpoint join (sep : string) (l : list string) : string :=
  match l with
  | [] => ""
  | [x] => x
  | x :: l' => x +:+ sep +:+ join sep l'
  end.

(** [p.rfind(c)]: the last index of [c] in [p], [-1] when there is none. *)
Fixpoint rfind_from (c : ascii) (p : string) (i : Z) (last : Z) : Z :=
  match p with
  | EmptyString => last
  | String d p' => rfind_from c p' (i + 1) (if Ascii.eqb d c then i else last)
  end.

Definition rfind (c : ascii) (p : string) : Z := rfind_from c p 0 (-1).

Definition char_at (p : string) (i : Z) : option ascii :=
  String.get (Z.to_nat i) p.

(** [os.path.join(a, b)] (posixpath, two arguments) *)
Definition path_join (a b : string) : string :=
  if startswith "/" b then b
  else if String.eqb a "" || endswith_sep a then a +:+ b
  else a +:+ "/" +:+ b.

(** [os.path.splitext(p)] (posixpath): the extension starts at the last
    dot of the last path component, unless that component has only dots
    before it. *)
Definition splitext (p : string) : string * string :=
  let sepIndex := rfind "/" p in
  let dotIndex := rfind "." p in
  if (sepIndex <? dotIndex)
     && existsb (fun i => match char_at p i with
                          | Some c => negb (Ascii.eqb c ".")
                          | None => false
                          end)
                (map (fun k => sepIndex + 1 + Z.of_nat k)
                     (seq 0 (Z.to_nat (dotIndex - sepIndex - 1))))
  then (substring 0 (Z.to_nat dotIndex) p,
        substring (Z.to_nat dotIndex) (String.length p - Z.to_nat dotIndex) p)
  else (p, "").

(** ** Dates *)

Record datetime := mk_datetime {
  ordinal : Z;       (* date.toordinal(): day 1 is 0001-01-01 *)
  hour : Z;
  minute : Z;
  second : Z;
  microsecond : Z
}.

Definition MAXORDINAL : Z := 3652059.

Inductive exn := ValueError | AttributeError | OverflowError.

Inductive outcome (A : Type) :=
| Returned (a : A)
| Raised (e : exn).
Arguments Returned {A} a.
Arguments Raised {A} e.

(** [d - datetime.timedelta(days=n)] *)
Definition sub_days (d : datetime) (n : Z) : outcome datetime :=
  let o := ordinal d - n in
  if (0 <? o) && (o <=? MAXORDINAL)
  then Returned (mk_datetime o (hour d) (minute d) (second d) (microsecond d))
  else Raised OverflowError.

(** [d.replace(hour=0, minute=0, second=0, microsecond=0)] *)
Definition replace_midnight (d : datetime) : datetime :=
  mk_datetime (ordinal d) 0 0 0 0.

(** [d.replace(hour=23, minute=59, second=59)]: the microsecond stays. *)
Definition replace_end_of_day (d : datetime) : datetime :=
  mk_datetime (ordinal d) 23 59 59 (microsecond d).

(** ** Library functions *)

Class PyLib := {
  (** [datetime.datetime.strptime(s, fmt)]; [None] is its [ValueError] *)
  strptime : string -> string -> option datetime;
  (** [d.timestamp()] of a naive datetime (local time) *)
  timestamp : datetime -> Z;
  (** [time.ctime(t)] *)
  time_ctime : Z -> string;
  (** [str(d)] *)
  str_datetime : datetime -> string;
  (** [os.path.normpath(p)] *)
  normpath : string -> string;
  (** The lower-case form [str.lower()] gives the character, not an ASCII
      one, whose encoding begins at byte [pos] of the string [whole] (the
      Unicode tables; the position is there for the final sigma, the one
      letter whose lower-case form looks at what is around it). *)
  lower_at : string -> nat -> string;
  (** What [os.getcwd()] returns after [os.chdir(p)] in the directory
      [cwd]: the physical path of the directory [p] names. *)
  chdir_getcwd : string -> string -> string
}.

(** ** Lower case *)

Section Lower.
Context {L : PyLib}.

(** [rest] is what is left of [whole] from byte [pos] on. *)
Fixpoint lower_from (whole : string) (pos : nat) (rest : string) : string :=
  match rest with
  | EmptyString => EmptyString
  | String c rest' =>
    if is_ascii_char c
    then String (lower_ascii c) (lower_from whole (S pos) rest')
    else if is_continuation c
    then lower_from whole (S pos) rest'
    else lower_at whole pos +:+ lower_from whole (S pos) rest'
  end.

(** [str.lower()] *)
Definition lower (s : string) : string := lower_from s 0 s.

End Lower.

(** ** The finder object *)

(** The [extensions] argument is [None], a sized collection (list, tuple,
    set: false when empty) or an iterator (a generator: always true). *)
Inductive extensions_arg :=
| ExtNone
| ExtCollection (l : list string)
| ExtIterator (l : list string).

Definition ext_truthy (a : extensions_arg) : bool :=
  match a with
  | ExtNone => false
  | ExtCollection l => negb (bool_decide (l = []))
  | ExtIterator _ => true
  end.

Definition ext_items (a : extensions_arg) : list string :=
  match a with
  | ExtNone => []
  | ExtCollection l => l
  | ExtIterator l => l
  end.

(** Truth value of an optional string: [None] and [""] are false. *)
Definition str_truthy (s : option string) : bool :=
  match s with
  | Some s => negb (String.eqb s "")
  | None => false
  end.

(** The attributes of a [FilesFinderByDate] object.  [_extensions] is
    [None] while the attribute has not been assigned. *)
Record finder := mk_finder {
  _root : option string;
  _output_info_to : option string;
  _start_date : datetime;
  _end_date : datetime;
  _sort_info : bool;
  _extensions : option (gset string)
}.

Section Normalize.
Context {L : PyLib}.

(** The element of the set comprehension of [__init__]. *)
Definition normalize_ext (ext : string) : string :=
  (if negb (startswith "." ext) then "." else "") +:+ lower ext.

Definition ext_set (l : list string) : gset string :=
  list_to_set (map normalize_ext l).

End Normalize.

(** The [date_format] of [__init__] (line 94). *)
Definition date_format (include_time : bool) : string :=
  if negb include_time then "%Y-%m-%d" else "%Y-%m-%d %H:%M:%S".

Section Finder.
Context {L : PyLib}.

(** [FilesFinderByDate.__init__].  [now_start] and [now_end] are what the
    clock reads at the two calls of [datetime.datetime.now()]. *)
Definition __init__ (now_start now_end : datetime)
    (root start_date end_date : option string) (include_time : bool)
    (output_info_to : option string) (extensions : extensions_arg)
    (sort_info : bool) : outcome finder :=
  let date_format := date_format include_time in
  let start :=
    if str_truthy start_date
    then match strptime (default "" start_date) date_format with
         | Some d => Returned d
         | None => Raised ValueError
         end
    else match sub_days now_start 7 with
         | Returned d => Returned (replace_midnight d)
         | Raised e => Raised e
         end in
  match start with
  | Raised e => Raised e
  | Returned start =>
    let end_ :=
      if str_truthy end_date
      then match strptime (default "" end_date) date_format with
           | Some d => Returned d
           | None => Raised ValueError
           end
      else Returned now_end in
    match end_ with
    | Raised e => Raised e
    | Returned end_ =>
      let end_ := if negb include_time then replace_end_of_day end_ else end_ in
      Returned
        {| _root := root;
           _output_info_to := output_info_to;
           _start_date := start;
           _end_date := end_;
           _sort_info := sort_info;
           _extensions :=
             if ext_truthy extensions
             then Some (ext_set (ext_items extensions))
             else None |}
    end
  end.

End Finder.

(** ** The world: working directory, report files, standard output *)

Record world := mk_world {
  w_cwd : string;
  w_files : gmap string string;
  w_stdout : list string
}.

(** Computations that read and write the world and may raise. *)
Definition M (A : Type) : Type := world -> outcome A * world.

Definition ret {A} (a : A) : M A := fun w => (Returned a, w).

Definition raise {A} (e : exn) : M A := fun w => (Raised e, w).

Definition bind {A B} (m : M A) (k : A -> M B) : M B :=
  fun w =>
    match m w with
    | (Returned a, w') => k a w'
    | (Raised e, w') => (Raised e, w')
    end.

Notation "x <- m ;; k" := (bind m (fun x => k))
  (at level 100, m at next level, right associativity).
Notation "m ;;; k" := (bind m (fun _ => k))
  (at level 100, right associativity).

(** A [for] loop that threads its local variables through the body. *)
Fixpoint for_each {A S} (body : S -> A -> M S) (l : list A) (s : S) : M S :=
  match l with
  | [] => ret s
  | x :: l' => s' <- body s x ;; for_each body l' s'
  end.

(** [os.path.exists(p)] for the path of a report file *)
Definition path_exists (p : string) : M bool :=
  fun w => (Returned (bool_decide (is_Some (w_files w !! p))), w).

Definition set_file (p content : string) (w : world) : world :=
  mk_world (w_cwd w) (<[p := content]> (w_files w)) (w_stdout w).

(** [with open(p, 'w') as f: f.write(s)] *)
Definition write_new (p s : string) : M unit :=
  fun w => (Returned tt, set_file p s w).

(** [with open(p, 'a') as f: f.write(s)] *)
Definition write_append (p s : string) : M unit :=
  fun w => (Returned tt, set_file p (default "" (w_files w !! p) +:+ s) w).

(** [print(s)] *)
Definition print (s : string) : M unit :=
  fun w => (Returned tt, mk_world (w_cwd w) (w_files w) (w_stdout w ++ [s])%list).

Definition getcwd : M string := fun w => (Returned (w_cwd w), w).

(** ** What the traversal observes *)

Record stat := mk_stat {
  st_mtime : Z;
  st_ctime : Z;
  st_atime : Z
}.

(** A file name of a directory listing with what [os.path.exists] and the
    three [getXtime] calls find when the file is visited; [None]: the path
    does not exist any more. *)
Record file_obs := mk_file {
  f_name : string;
  f_stat : option stat
}.

(** One triple [(root, dirs, files)] yielded by [os.walk]. *)
Record dir_listing := mk_dir {
  d_root : string;
  d_dirs : list string;
  d_files : list file_obs
}.

(** The tuple [(file_path, mtime, ctime, atime)] kept for the sorter;
    [itemK] is [i[K]]. *)
Record match_tuple := mk_tuple {
  item0 : string;
  item1 : Z;
  item2 : Z;
  item3 : Z
}.

(** The condition of lines 131-133. *)
Definition in_window (start_date end_date mtime ctime atime : Z) : bool :=
  ((start_date <? mtime) && (mtime <? end_date))
  || ((start_date <? ctime) && (ctime <? end_date))
  || ((start_date <? atime) && (atime <? end_date)).

Section Reports.
Context {L : PyLib}.

(** The line appended to the primary report for a match. *)
Definition primary_line (file_path : string) (mtime ctime atime : Z) : string :=
  "file=" +:+ file_path +:+ " | "
  +:+ "mtime=" +:+ time_ctime mtime +:+ " | "
  +:+ "ctime=" +:+ time_ctime ctime +:+ " | "
  +:+ "atime=" +:+ time_ctime atime +:+ nl.

(** The body of the inner loop of [_walker]; the local variables
    [files_founded] and [files_list] are the loop state. *)
Definition visit_file (self : finder) (write_file : string)
    (start_date end_date : Z) (root : string)
    (acc : nat * list match_tuple) (file : file_obs)
    : M (nat * list match_tuple) :=
  let file_path := path_join root (f_name file) in
  match f_stat file with
  | None => ret acc
  | Some st =>
    let file_ext := lower (snd (splitext file_path)) in
    let ctime := st_ctime st in
    let mtime := st_mtime st in
    let atime := st_atime st in
    match _extensions self with
    | None => raise AttributeError
    | Some extensions =>
      if bool_decide (extensions <> ∅)
         && negb (bool_decide (file_ext ∈ extensions))
      then ret acc
      else if in_window start_date end_date mtime ctime atime
      then
        let files_founded := S (fst acc) in
        let files_list :=
          if _sort_info self
          then (snd acc ++ [mk_tuple file_path mtime ctime atime])%list
          else snd acc in
        write_append write_file (primary_line file_path mtime ctime atime) ;;;
        ret (files_founded, files_list)
      else ret acc
    end
  end.

(** [FilesFinderByDate._walker]; [walk] is what [os.walk(self._root)]
    yields. *)
Definition _walker (self : finder) (walk : list dir_listing)
    (write_file : string) : M (nat * option (list match_tuple)) :=
  let start_date := timestamp (_start_date self) in
  let end_date := timestamp (_end_date self) in
  r <- for_each
         (fun acc d =>
            for_each (visit_file self write_file start_date end_date (d_root d))
                     (d_files d) acc)
         walk (0%nat, []) ;;
  ret (fst r, if _sort_info self then Some (snd r) else None).

End Reports.

(** ** The sorter *)

(** [itemgetter(2, 1, 3, 0)] *)
Definition sort_key (i : match_tuple) : Z * Z * Z * string :=
  (item2 i, item1 i, item3 i, item0 i).

(** [k1 < k2] on the key tuples, as Python compares tuples: the first
    position where they differ decides; strings compare by code point. *)
Definition key_ltb (k1 k2 : Z * Z * Z * string) : bool :=
  let '(a1, b1, c1, d1) := k1 in
  let '(a2, b2, c2, d2) := k2 in
  if negb (a1 =? a2) then a1 <? a2
  else if negb (b1 =? b2) then b1 <? b2
  else if negb (c1 =? c2) then c1 <? c2
  else String.ltb d1 d2.

(** [list.sort(key=...)] is an ascending stable sort that compares keys
    with [<] only.  A stable sort has one possible result; this one finds
    it by insertion, an element going in front of the first one whose key
    is not smaller than its own. *)
Fixpoint insert_sorted (x : match_tuple) (l : list match_tuple)
    : list match_tuple :=
  match l with
  | [] => [x]
  | y :: l' =>
    if key_ltb (sort_key y) (sort_key x)
    then y :: insert_sorted x l'
    else x :: y :: l'
  end.

Definition list_sort (l : list match_tuple) : list match_tuple :=
  fold_right insert_sorted [] l.

Section Sorter.
Context {L : PyLib}.

Definition info (i : match_tuple) : string :=
  "file: " +:+ item0 i +:+ nl
  +:+ "created: " +:+ time_ctime (item2 i) +:+ nl
  +:+ "modified: " +:+ time_ctime (item1 i) +:+ nl
  +:+ "accessed: " +:+ time_ctime (item3 i) +:+ nl.

Definition info_table (i : match_tuple) : string :=
  "file=" +:+ item0 i +:+ "   |   "
  +:+ "mtime=" +:+ time_ctime (item2 i) +:+ "   |   "
  +:+ "ctime=" +:+ time_ctime (item1 i) +:+ "   |   "
  +:+ "atime=" +:+ time_ctime (item3 i).

(** [FilesFinderByDate._sorter] *)
Definition _sorter (list_file table_file : string)
    (files_list : list match_tuple) : M unit :=
  let files_list := list_sort files_list in
  let infos_list := map info files_list in
  let infos_table := map info_table files_list in
  write_append list_file (join nl infos_list +:+ nl +:+ nl) ;;;
  write_append table_file (join nl infos_table).

End Sorter.

(** ** The run *)

Section Run.
Context {L : PyLib}.

(** [os.path.abspath(p)] *)
Definition abspath (p : string) : M string :=
  fun w => (Returned (normpath (path_join (w_cwd w) p)), w).

(** [os.chdir(p)]: the working directory becomes the directory [p]
    names, under the path [os.getcwd()] has for it. *)
Definition chdir (p : string) : M unit :=
  fun w => (Returned tt,
            mk_world (chdir_getcwd (w_cwd w) p) (w_files w) (w_stdout w)).

Definition legend : string :=
  "     file     |     modified     |"
  +:+ "     created     |     accessed" +:+ nl.

Definition starting_text (now_run : datetime) (self : finder) : string :=
  "script started at: " +:+ str_datetime now_run +:+ nl
  +:+ "start date: " +:+ str_datetime (_start_date self) +:+ nl
  +:+ "end date: " +:+ str_datetime (_end_date self) +:+ nl
  +:+ legend.

(** The [if not os.path.exists(p): ... else: ...] that opens each of the
    three reports: a new file starts with the header, an existing one gets
    three newlines and the header appended. *)
Definition start_report (p header : string) : M unit :=
  e <- path_exists p ;;
  if negb e then write_new p header
  else write_append p (nl +:+ nl +:+ nl +:+ header).

(** [FilesFinderByDate.find_files].  [now_run] is the clock reading of the
    header; the result is the object with its attributes as the call
    leaves them. *)
Definition find_files (self : finder) (now_run : datetime)
    (walk : list dir_listing) : M finder :=
  out <- (if str_truthy (_output_info_to self)
          then p <- abspath (default "" (_output_info_to self)) ;; ret (Some p)
          else ret (_output_info_to self)) ;;
  (if str_truthy (_root self)
   then chdir (default "" (_root self))
   else ret tt) ;;;
  root <- getcwd ;;
  out <- abspath (if str_truthy out then default "" out else root) ;;
  let self := mk_finder (Some root) (Some out) (_start_date self)
                        (_end_date self) (_sort_info self) (_extensions self) in
  let write_table := path_join out "founded_table.txt" in
  let starting_text := starting_text now_run self in
  start_report write_table starting_text ;;;
  r <- _walker self walk write_table ;;
  let files_founded := fst r in
  let files_list := snd r in
  (if _sort_info self
   then
     let write_list_sorted := path_join out "founded_list_sorted.txt" in
     let write_table_sorted := path_join out "founded_table_sorted.txt" in
     start_report write_list_sorted (drop_last 67 starting_text +:+ nl +:+ nl) ;;;
     start_report write_table_sorted starting_text ;;;
     match files_list with
     | Some files_list => _sorter write_list_sorted write_table_sorted files_list
     | None => raise AttributeError
     end
   else ret tt) ;;;
  print ("Files founded: " +:+ pretty files_founded) ;;;
  print ("Output info to: " +:+ out +:+ " folder") ;;;
  ret self.

(** The script of the class docstring: construct the finder, then call
    [find_files] on it. *)
Definition run (now_start now_end now_run : datetime)
    (root start_date end_date : option string) (include_time : bool)
    (output_info_to : option string) (extensions : extensions_arg)
    (sort_info : bool) (walk : list dir_listing) : M finder :=
  fun w =>
    match __init__ now_start now_end root start_date end_date include_time
                   output_info_to extensions sort_info with
    | Returned ff => find_files ff now_run walk w
    | Raised e => (Raised e, w)
    end.

End Run.

(** ** A library instance for running the model

    Local time is UTC and a tick is a microsecond; date strings are read
    in their zero-padded fixed-width form only; [time.ctime] and
    [str(datetime)] print numbers instead of calendar text; paths are
    taken as already normal and free of symbolic links; only the ASCII
    letters have two cases. *)

Definition digit (c : ascii) : option Z :=
  let n := nat_of_ascii c in
  if (48 <=? n)%nat && (n <=? 57)%nat then Some (Z.of_nat n - 48) else None.

Fixpoint number_from (s : string) (acc : Z) : option Z :=
  match s with
  | EmptyString => Some acc
  | String c s' =>
    match digit c with
    | Some d => number_from s' (10 * acc + d)
    | None => None
    end
  end.

Definition number (s : string) : option Z :=
  match s with
  | EmptyString => None
  | _ => number_from s 0
  end.

Definition is_leap (y : Z) : bool :=
  (y mod 4 =? 0) && (negb (y mod 100 =? 0) || (y mod 400 =? 0)).

Definition days_in_month (y m : Z) : Z :=
  if m =? 2 then (if is_leap y then 29 else 28)
  else if (m =? 4) || (m =? 6) || (m =? 9) || (m =? 11) then 30
  else 31.

Definition days_before_year (y : Z) : Z :=
  let y := y - 1 in y * 365 + y / 4 - y / 100 + y / 400.

Definition days_before_month (y m : Z) : Z :=
  fold_right Z.add 0
    (map (fun k => days_in_month y (Z.of_nat k)) (seq 1 (Z.to_nat (m - 1)))).

Definition ymd2ord (y m d : Z) : Z :=
  days_before_year y + days_before_month y m + d.

Definition parse_date (s : string) : option Z :=
  match number (substring 0 4 s), number (substring 5 2 s),
        number (substring 8 2 s) with
  | Some y, Some m, Some d =>
    if String.eqb (substring 4 1 s) "-" && String.eqb (substring 7 1 s) "-"
       && (1 <=? y) && (1 <=? m) && (m <=? 12)
       && (1 <=? d) && (d <=? days_in_month y m)
    then Some (ymd2ord y m d) else None
  | _, _, _ => None
  end.

Definition parse_time (s : string) : option (Z * Z * Z) :=
  match number (substring 0 2 s), number (substring 3 2 s),
        number (substring 6 2 s) with
  | Some h, Some mi, Some se =>
    if String.eqb (substring 2 1 s) ":" && String.eqb (substring 5 1 s) ":"
       && (h <=? 23) && (mi <=? 59) && (se <=? 59)
    then Some (h, mi, se) else None
  | _, _, _ => None
  end.

Definition sample_strptime (s fmt : string) : option datetime :=
  if String.eqb fmt "%Y-%m-%d" then
    if (String.length s =? 10)%nat then
      match parse_date s with
      | Some o => Some (mk_datetime o 0 0 0 0)
      | None => None
      end
    else None
  else if String.eqb fmt "%Y-%m-%d %H:%M:%S" then
    if (String.length s =? 19)%nat && String.eqb (substring 10 1 s) " " then
      match parse_date (substring 0 10 s), parse_time (substring 11 8 s) with
      | Some o, Some (h, mi, se) => Some (mk_datetime o h mi se 0)
      | _, _ => None
      end
    else None
  else None.

Definition sample_timestamp (d : datetime) : Z :=
  (((ordinal d - 719163) * 86400
    + hour d * 3600 + minute d * 60 + second d) * 1000000)
  + microsecond d.

Definition sample_str_datetime (d : datetime) : string :=
  "day " +:+ pretty (ordinal d) +:+ " " +:+ pretty (hour d) +:+ ":"
  +:+ pretty (minute d) +:+ ":" +:+ pretty (second d)
  +:+ "." +:+ pretty (microsecond d).

(** The bytes of the character that begins at byte [pos] of [whole]. *)
Fixpoint continuation_bytes (s : string) : string :=
  match s with
  | EmptyString => EmptyString
  | String c s' =>
    if negb (is_ascii_char c) && is_continuation c
    then String c (continuation_bytes s')
    else EmptyString
  end.

Definition utf8_char_at (whole : string) (pos : nat) : string :=
  match substring pos (String.length whole - pos) whole with
  | EmptyString => EmptyString
  | String c s' => String c (continuation_bytes s')
  end.

(** The characters outside ASCII are left as they are; the working
    directory is named by the path that led to it. *)
Definition sample_lib : PyLib := {|
  strptime := sample_strptime;
  timestamp := sample_timestamp;
  time_ctime := fun t => pretty t;
  str_datetime := sample_str_datetime;
  normpath := fun p => p;
  lower_at := utf8_char_at;
  chdir_getcwd := fun cwd p => path_join cwd p
|}.

Definition empty_world (cwd : string) : world := mk_world cwd ∅ [].

(** Sample inputs: the clock reads 2022-01-14 10:00:00; the directory
    [/r] holds [a.txt] (modified on January 14, created on January 13),
    [notes] without an extension, and a name whose file is gone. *)
Definition sample_now : datetime := mk_datetime 738169 10 0 0 0.

Definition sample_walk : list dir_listing :=
  [mk_dir "/r" []
     [mk_file "a.txt"
        (Some (mk_stat 1642154400000000 1642068000000000 1642158000000000));
      mk_file "notes"
        (Some (mk_stat 1642154400000000 1642068000000000 1642158000000000));
      mk_file "gone.txt" None]].

(** The object [FilesFinderByDate(root="/r", extensions=["txt"],
    sort_info=True)] of that day, once [find_files] has resolved its
    paths. *)
Definition sample_finder : finder :=
  mk_finder (Some "/r") (Some "/r") (mk_datetime 738162 0 0 0 0)
            (mk_datetime 738169 23 59 59 0) true (Some (@ext_set sample_lib ["txt"])).

(** The same object as [__init__] leaves it. *)
Definition sample_new_finder : finder :=
  mk_finder (Some "/r") None (mk_datetime 738162 0 0 0 0)
            (mk_datetime 738169 23 59 59 0) true (Some (@ext_set sample_lib ["txt"])).

(** A world where an earlier run has left a primary report in [/r]. *)
Definition sample_world : world :=
  mk_world "/home" {["/r/founded_table.txt" := "earlier run" +:+ nl]} [].

Definition sample_tuple : match_tuple :=
  mk_tuple "/r/a.txt" 1642154400000000 1642068000000000 1642158000000000.

(** ** Notions used to state the properties *)

(** The strings [lines] one after the other. *)
Definition text_of (lines : list string) : string :=
  fold_right String.append "" lines.

(** The world after the strings [lines] were appended, one [open(p, 'a')]
    each, to the file [p]. *)
Definition append_lines (p : string) (lines : list string) (w : world) : world :=
  fold_left (fun w s => snd (write_append p s w)) lines w.

Section Matches.
Context {L : PyLib}.

Definition tuple_line (i : match_tuple) : string :=
  primary_line (item0 i) (item1 i) (item2 i) (item3 i).

(** The record of a visited file that is reported under the filter set
    [exts] and the window bounds, if it is. *)
Definition file_match (exts : gset string) (start_date end_date : Z)
    (root : string) (file : file_obs) : option match_tuple :=
  match f_stat file with
  | None => None
  | Some st =>
    let file_path := path_join root (f_name file) in
    if bool_decide (exts <> ∅)
       && negb (bool_decide (lower (snd (splitext file_path)) ∈ exts))
    then None
    else if in_window start_date end_date (st_mtime st) (st_ctime st) (st_atime st)
    then Some (mk_tuple file_path (st_mtime st) (st_ctime st) (st_atime st))
    else None
  end.

Definition walk_matches (exts : gset string) (start_date end_date : Z)
    (walk : list dir_listing) : list match_tuple :=
  flat_map (fun d => omap (file_match exts start_date end_date (d_root d))
                          (d_files d)) walk.

End Matches.

(** A visited file that still exists. *)
Definition is_there (file : file_obs) : bool :=
  match f_stat file with Some _ => true | None => false end.

(** The extension component of [os.path.splitext] for the file [name]
    of the directory [root]. *)
Definition splitext_ext (root name : string) : string :=
  snd (splitext (path_join root name)).

(** The listings without the files that have no extension. *)
Definition without_extensionless (walk : list dir_listing) : list dir_listing :=
  map (fun d =>
         mk_dir (d_root d) (d_dirs d)
                (List.filter (fun file =>
                           negb (String.eqb (splitext_ext (d_root d) (f_name file)) ""))
                        (d_files d)))
      walk.

(** The order of the sorted reports in the words of the specification:
    creation time, then modification time, then access time, then path. *)
Definition record_le (x y : match_tuple) : Prop :=
  item2 x < item2 y
  \/ (item2 x = item2 y
      /\ (item1 x < item1 y
          \/ (item1 x = item1 y
              /\ (item3 x < item3 y
                  \/ (item3 x = item3 y
                      /\ String.leb (item0 x) (item0 y) = true))))).

(** Two spellings of one extension, in ASCII characters: letters in
    another case, a dot put in front of a string that has none, and what
    follows from these by symmetry and transitivity. *)
Inductive same_extension : string -> string -> Prop :=
| same_case s t :
    is_ascii s = true -> case_variant s t = true -> same_extension s t
| same_dotted s :
    is_ascii s = true -> startswith "." s = false ->
    same_extension s ("." +:+ s)
| same_sym s t : same_extension s t -> same_extension t s
| same_trans s t u : same_extension s t -> same_extension t u -> same_extension s u.

(** A string without an upper-case ASCII letter. *)
Fixpoint no_upper (s : string) : bool :=
  match s with
  | EmptyString => true
  | String c s' => negb (is_upper c) && no_upper s'
  end.

(** What a file holds after the strings [lines] were appended to it, one
    [open(p, 'a')] each: what it held, then the strings; with no string
    the file is as it was, there or not. *)
Definition appended (before : option string) (lines : list string)
    : option string :=
  match lines with
  | [] => before
  | _ => Some (default "" before +:+ text_of lines)
  end.

(** What a report holds once a run has put its header in: a new file
    starts with the header, a file that was there keeps its content and
    gets three newlines and the header. *)
Definition opened (before : option string) (header : string) : string :=
  match before with
  | Some old => old +:+ nl +:+ nl +:+ nl +:+ header
  | None => header
  end.

(** [w'] has every file of [w], with its content of [w] at the front. *)
Definition keeps_files (w w' : world) : Prop :=
  forall p old, w_files w !! p = Some old ->
    exists rest, w_files w' !! p = Some (old +:+ rest).

(** The path [q] is in [w'] what it is in [w]. *)
Definition untouched (q : string) (w w' : world) : Prop :=
  w_files w' !! q = w_files w !! q.

(** A computation whose final world is related by [R] to the world it
    starts in, whether it returns or raises. *)
Definition respects (R : world -> world -> Prop) {A} (m : M A) : Prop :=
  forall w, R w (snd (m w)).

(** ** Notions used to state further properties *)

(** More sample objects: one that [__init__] left without a filter set,
    one with a window that starts months earlier, one whose window ends
    before it starts; and a second record. *)
Definition sample_bare_finder : finder :=
  mk_finder (Some "/r") None (mk_datetime 738162 0 0 0 0)
            (mk_datetime 738169 23 59 59 0) true None.

Definition sample_wide_finder : finder :=
  mk_finder (Some "/r") (Some "/r") (mk_datetime 738000 0 0 0 0)
            (mk_datetime 738169 23 59 59 0) true (Some (@ext_set sample_lib ["txt"])).

Definition sample_inverted_finder : finder :=
  mk_finder (Some "/r") (Some "/r") (mk_datetime 738169 0 0 0 0)
            (mk_datetime 738162 23 59 59 0) true (Some (@ext_set sample_lib ["txt"])).

Definition sample_tuple_b : match_tuple :=
  mk_tuple "/r/b.txt" 1642154400000000 1642068000000000 1642158000000000.

(** The listings without the names whose file is gone. *)
Definition without_vanished (walk : list dir_listing) : list dir_listing :=
  map (fun d => mk_dir (d_root d) (d_dirs d) (List.filter is_there (d_files d)))
      walk.

(** Some listed file is still there when it is visited. *)
Definition some_file_there (walk : list dir_listing) : bool :=
  existsb (fun d => existsb is_there (d_files d)) walk.

(** The lists of two traversals, one after the other. *)
Definition lists_app (l1 l2 : option (list match_tuple))
    : option (list match_tuple) :=
  match l1, l2 with
  | Some a, Some b => Some (a ++ b)%list
  | _, _ => None
  end.

Section Resolved.
Context {L : PyLib}.

(** The world once [find_files] has changed the working directory
    (lines 170-171). *)
Definition moved (self : finder) (w : world) : world :=
  if str_truthy (_root self)
  then mk_world (chdir_getcwd (w_cwd w) (default "" (_root self)))
                (w_files w) (w_stdout w)
  else w.

(** The output folder [find_files] resolves (lines 168-175): the given
    one, made absolute before the change of directory, or the root. *)
Definition resolved_output (self : finder) (w : world) : string :=
  let out :=
    if str_truthy (_output_info_to self)
    then Some (normpath (path_join (w_cwd w) (default "" (_output_info_to self))))
    else _output_info_to self in
  let root := w_cwd (moved self w) in
  normpath (path_join root (if str_truthy out then default "" out else root)).

(** The object as [find_files] leaves it. *)
Definition resolved (self : finder) (w : world) : finder :=
  mk_finder (Some (w_cwd (moved self w))) (Some (resolved_output self w))
            (_start_date self) (_end_date self) (_sort_info self)
            (_extensions self).

(** The three lines of a run header, without the column legend and
    without a newline at the end. *)
Definition header_lines (now_run : datetime) (self : finder) : string :=
  "script started at: " +:+ str_datetime now_run +:+ nl
  +:+ "start date: " +:+ str_datetime (_start_date self) +:+ nl
  +:+ "end date: " +:+ str_datetime (_end_date self).

(** The two lines a run prints when it ends. *)
Definition summary (files_founded : nat) (out : string) : list string :=
  ["Files founded: " +:+ pretty files_founded;
   "Output info to: " +:+ out +:+ " folder"].

End Resolved.

(** ** Lemmas on the world *)

Lemma append_lines_nil p w : append_lines p [] w = w.
Proof. reflexivity. Qed.

Lemma append_lines_cons p s lines w :
  append_lines p (s :: lines) w = append_lines p lines (snd (write_append p s w)).
Proof. reflexivity. Qed.

Lemma append_lines_app p l1 l2 w :
  append_lines p (l1 ++ l2)%list w = append_lines p l2 (append_lines p l1 w).
Proof. unfold append_lines. apply fold_left_app. Qed.

Lemma append_cons (x : ascii) (a b : string) :
  String x a +:+ b = String x (a +:+ b).
Proof. reflexivity. Qed.

Lemma append_nil_l (b : string) : "" +:+ b = b.
Proof. reflexivity. Qed.

Lemma append_assoc (a b c : string) : (a +:+ b) +:+ c = a +:+ (b +:+ c).
Proof.
  induction a as [|x a IH]; [reflexivity|].
  rewrite !append_cons. now rewrite IH.
Qed.

Lemma append_empty_r (a : string) : a +:+ "" = a.
Proof.
  induction a as [|x a IH]; [reflexivity|].
  rewrite append_cons. now rewrite IH.
Qed.

(** Appending keeps what a file held and leaves the other files alone. *)
Lemma append_lines_files p lines w :
  w_cwd (append_lines p lines w) = w_cwd w
  /\ w_stdout (append_lines p lines w) = w_stdout w
  /\ (forall q, q <> p -> w_files (append_lines p lines w) !! q = w_files w !! q)
  /\ (forall old, w_files w !! p = Some old ->
        w_files (append_lines p lines w) !! p
        = Some (old +:+ text_of lines)).
Proof.
  revert w. induction lines as [|s lines IH]; intros w.
  - simpl. repeat split; try reflexivity.
    intros old H. now rewrite append_empty_r.
  - rewrite append_lines_cons.
    destruct (IH (snd (write_append p s w))) as (Hc & Ho & Hq & Hp).
    repeat split.
    + rewrite Hc. reflexivity.
    + rewrite Ho. reflexivity.
    + intros q Hne. rewrite (Hq q Hne). simpl.
      apply lookup_insert_ne. congruence.
    + intros old Hold.
      rewrite (Hp (old +:+ s)).
      * cbn [text_of fold_right]. now rewrite append_assoc.
      * cbn. rewrite Hold. cbn. apply lookup_insert_eq.
Qed.

(** ** The traversal, characterised *)

Section WalkerFacts.
Context {L : PyLib}.
Variables (self : finder) (write_file : string) (start_date end_date : Z).

Lemma visit_file_filtered exts root acc file w :
  _extensions self = Some exts ->
  visit_file self write_file start_date end_date root acc file w
  = match file_match exts start_date end_date root file with
    | Some i =>
      (Returned (S (fst acc),
                 if _sort_info self then (snd acc ++ [i])%list else snd acc),
       snd (write_append write_file (tuple_line i) w))
    | None => (Returned acc, w)
    end.
Proof.
  intros He. unfold visit_file, file_match.
  destruct (f_stat file) as [st|]; [|reflexivity].
  rewrite He. cbn zeta.
  destruct (bool_decide (exts <> ∅) && _); [reflexivity|].
  destruct (in_window _ _ _ _ _); reflexivity.
Qed.

Lemma for_each_files_filtered exts root files acc w :
  _extensions self = Some exts ->
  for_each (visit_file self write_file start_date end_date root) files acc w
  = (Returned ((fst acc + length (omap (file_match exts start_date end_date root) files))%nat,
               if _sort_info self
               then (snd acc ++ omap (file_match exts start_date end_date root) files)%list
               else snd acc),
     append_lines write_file
       (map tuple_line (omap (file_match exts start_date end_date root) files)) w).
Proof.
  intros He. revert acc w.
  induction files as [|file files IH]; intros [n l] w.
  - cbn. rewrite Nat.add_0_r, app_nil_r. now destruct (_sort_info self).
  - cbn [for_each]. unfold bind at 1.
    rewrite (visit_file_filtered exts) by exact He.
    cbn [omap list_omap].
    destruct (file_match exts start_date end_date root file) as [i|].
    + rewrite IH. cbn [fst snd length map].
      rewrite append_lines_cons. f_equal. f_equal. f_equal.
      * lia.
      * destruct (_sort_info self); [|reflexivity].
        now rewrite <- app_assoc.
    + apply IH.
Qed.

Lemma for_each_dirs_filtered exts walk acc w :
  _extensions self = Some exts ->
  for_each (fun acc d =>
              for_each (visit_file self write_file start_date end_date (d_root d))
                       (d_files d) acc) walk acc w
  = (Returned ((fst acc + length (walk_matches exts start_date end_date walk))%nat,
               if _sort_info self
               then (snd acc ++ walk_matches exts start_date end_date walk)%list
               else snd acc),
     append_lines write_file
       (map tuple_line (walk_matches exts start_date end_date walk)) w).
Proof.
  intros He. revert acc w.
  induction walk as [|d walk IH]; intros [n l] w.
  - cbn. rewrite Nat.add_0_r, app_nil_r. now destruct (_sort_info self).
  - cbn [for_each]. unfold bind at 1.
    rewrite (for_each_files_filtered exts) by exact He.
    rewrite IH. unfold walk_matches. cbn [flat_map fst snd].
    rewrite length_app, map_app, append_lines_app.
    f_equal. f_equal. f_equal.
    + lia.
    + destruct (_sort_info self); [|reflexivity].
      now rewrite <- app_assoc.
Qed.

Lemma visit_file_unset root acc file w :
  _extensions self = None ->
  visit_file self write_file start_date end_date root acc file w
  = if is_there file then (Raised AttributeError, w) else (Returned acc, w).
Proof.
  intros He. unfold visit_file, is_there.
  destruct (f_stat file); [|reflexivity]. now rewrite He.
Qed.

Lemma for_each_files_unset root files acc w :
  _extensions self = None ->
  for_each (visit_file self write_file start_date end_date root) files acc w
  = if existsb is_there files then (Raised AttributeError, w) else (Returned acc, w).
Proof.
  intros He. induction files as [|file files IH]; [reflexivity|].
  cbn [for_each existsb]. unfold bind.
  rewrite visit_file_unset by exact He.
  destruct (is_there file); [reflexivity | exact IH].
Qed.

Lemma for_each_dirs_unset walk acc w :
  _extensions self = None ->
  for_each (fun acc d =>
              for_each (visit_file self write_file start_date end_date (d_root d))
                       (d_files d) acc) walk acc w
  = if existsb (fun d => existsb is_there (d_files d)) walk
    then (Raised AttributeError, w) else (Returned acc, w).
Proof.
  intros He. induction walk as [|d walk IH]; [reflexivity|].
  cbn [for_each existsb]. unfold bind.
  rewrite for_each_files_unset by exact He.
  destruct (existsb is_there (d_files d)); [reflexivity | exact IH].
Qed.

End WalkerFacts.

Section WalkerResult.
Context {L : PyLib}.

Lemma walker_filtered self exts walk write_file w :
  _extensions self = Some exts ->
  _walker self walk write_file w
  = (Returned (length (walk_matches exts (timestamp (_start_date self))
                                    (timestamp (_end_date self)) walk),
               if _sort_info self
               then Some (walk_matches exts (timestamp (_start_date self))
                                       (timestamp (_end_date self)) walk)
               else None),
     append_lines write_file
       (map tuple_line (walk_matches exts (timestamp (_start_date self))
                                     (timestamp (_end_date self)) walk)) w).
Proof.
  intros He. unfold _walker, bind.
  rewrite (for_each_dirs_filtered self write_file _ _ exts) by exact He.
  cbn. now destruct (_sort_info self).
Qed.

Lemma walker_unset self walk write_file w :
  _extensions self = None ->
  _walker self walk write_file w
  = if existsb (fun d => existsb is_there (d_files d)) walk
    then (Raised AttributeError, w)
    else (Returned (0%nat, if _sort_info self then Some [] else None), w).
Proof.
  intros He. unfold _walker, bind.
  rewrite for_each_dirs_unset by exact He.
  now destruct (existsb _ walk).
Qed.

End WalkerResult.

(** ** Extensions *)

Lemma lower_ascii_idem c : lower_ascii (lower_ascii c) = lower_ascii c.
Proof. destruct c as [[] [] [] [] [] [] [] []]; reflexivity. Qed.

Lemma lower_ascii_dot c : lower_ascii c = "."%char <-> c = "."%char.
Proof.
  destruct c as [[] [] [] [] [] [] [] []]; split; intros H;
    solve [reflexivity | discriminate H].
Qed.

Lemma lower_ascii_facts c :
  is_ascii_char c = true ->
  is_ascii_char (lower_ascii c) = true /\ is_upper (lower_ascii c) = false.
Proof.
  destruct c as [[] [] [] [] [] [] [] []]; intros H;
    solve [split; reflexivity | discriminate H].
Qed.

Lemma upper_and_lower c d :
  is_upper c = true -> d = ascii_of_nat (nat_of_ascii c + 32) ->
  lower_ascii c = lower_ascii d
  /\ is_ascii_char c = true /\ is_ascii_char d = true.
Proof.
  intros Hc ->.
  destruct c as [[] [] [] [] [] [] [] []];
    solve [repeat split; reflexivity | discriminate Hc].
Qed.

Lemma case_pair_lower c d :
  case_pair c d = true -> is_ascii_char c = true ->
  lower_ascii c = lower_ascii d /\ is_ascii_char d = true.
Proof.
  unfold case_pair. rewrite !orb_true_iff, !andb_true_iff.
  intros [[H | [Hu H]] | [Hu H]] Hc.
  - apply Ascii.eqb_eq in H. now subst d.
  - apply Ascii.eqb_eq in H.
    destruct (upper_and_lower c d Hu H) as (Hl & _ & Hd). now split.
  - apply Ascii.eqb_eq in H.
    destruct (upper_and_lower d c Hu H) as (Hl & Hd & _). now split.
Qed.

Lemma startswith_dot s :
  startswith "." s = true <-> exists s', s = String "."%char s'.
Proof.
  unfold startswith. rewrite prefix_correct.
  destruct s as [|c s]; cbn [String.length substring].
  - split; [discriminate | intros [s' H]; discriminate H].
  - replace (substring 0 0 s) with "" by now destruct s.
    split.
    + intros H. injection H as ->. eauto.
    + intros [s' H]. injection H as -> _. reflexivity.
Qed.

Lemma startswith_dot_char c s :
  startswith "." (String c s) = Ascii.eqb c ".".
Proof.
  apply eq_true_iff_eq. rewrite startswith_dot, Ascii.eqb_eq. split.
  - intros [s' H]. now injection H as -> _.
  - intros ->. eauto.
Qed.

Section ExtensionFacts.
Context {L : PyLib}.

(** The ASCII characters are lowered where they stand, whatever is around
    them. *)
Lemma lower_from_ascii whole pos rest :
  is_ascii rest = true ->
  lower_from whole pos rest = ascii_lower rest.
Proof.
  revert pos. induction rest as [|c rest IH]; intros pos H; [reflexivity|].
  cbn [is_ascii] in H. apply andb_true_iff in H as [Hc Hr].
  cbn [lower_from ascii_lower]. rewrite Hc. now rewrite IH.
Qed.

Lemma lower_ascii_string s : is_ascii s = true -> lower s = ascii_lower s.
Proof. apply lower_from_ascii. Qed.

Lemma lower_dot_first s :
  exists s', lower (String "."%char s) = String "."%char s'.
Proof. unfold lower. cbn [lower_from]. eexists. reflexivity. Qed.

Lemma ascii_lower_facts s :
  is_ascii s = true ->
  is_ascii (ascii_lower s) = true
  /\ no_upper (ascii_lower s) = true
  /\ ascii_lower (ascii_lower s) = ascii_lower s
  /\ startswith "." (ascii_lower s) = startswith "." s.
Proof.
  induction s as [|c s IH]; intros H; [repeat split; reflexivity|].
  cbn [is_ascii] in H. apply andb_true_iff in H as [Hc Hs].
  destruct (IH Hs) as (Ha & Hn & Hi & _).
  destruct (lower_ascii_facts c Hc) as [Hlc Hlu].
  cbn [ascii_lower is_ascii no_upper].
  rewrite Hlc, Hlu, Ha, Hn, Hi, lower_ascii_idem.
  repeat split; try reflexivity.
  rewrite !startswith_dot_char. apply eq_true_iff_eq.
  rewrite !Ascii.eqb_eq. apply lower_ascii_dot.
Qed.

Lemma case_variant_lower s t :
  case_variant s t = true -> is_ascii s = true ->
  ascii_lower s = ascii_lower t /\ is_ascii t = true.
Proof.
  revert t. induction s as [|c s IH]; intros [|d t] H Hs;
    try discriminate H; [split; reflexivity|].
  cbn [case_variant] in H. apply andb_true_iff in H as [Hp Hv].
  cbn [is_ascii] in Hs. apply andb_true_iff in Hs as [Hc Hs].
  destruct (case_pair_lower c d Hp Hc) as [Hl Hd].
  destruct (IH t Hv Hs) as [Hls Ht].
  cbn [ascii_lower is_ascii]. rewrite Hl, Hls, Hd, Ht. split; reflexivity.
Qed.

Lemma normalize_ext_dotted ext : startswith "." (normalize_ext ext) = true.
Proof.
  unfold normalize_ext.
  destruct (startswith "." ext) eqn:Hs; cbn [negb].
  - rewrite append_nil_l. apply startswith_dot in Hs as [s' ->].
    apply startswith_dot. apply lower_dot_first.
  - apply startswith_dot. now exists (lower ext).
Qed.

Lemma normalize_ext_nonempty ext : normalize_ext ext <> "".
Proof.
  intros H. pose proof (normalize_ext_dotted ext) as Hd.
  rewrite H in Hd. discriminate Hd.
Qed.

(** The stored form of an ASCII string. *)
Lemma normalize_ext_ascii ext :
  is_ascii ext = true ->
  normalize_ext ext
  = (if negb (startswith "." ext) then "." else "") +:+ ascii_lower ext
  /\ is_ascii (normalize_ext ext) = true
  /\ no_upper (normalize_ext ext) = true
  /\ lower (normalize_ext ext) = normalize_ext ext.
Proof.
  intros H. destruct (ascii_lower_facts ext H) as (Ha & Hn & Hi & Hd).
  assert (E : normalize_ext ext
              = (if negb (startswith "." ext) then "." else "")
                +:+ ascii_lower ext)
    by (unfold normalize_ext; now rewrite (lower_ascii_string ext H)).
  split; [exact E|]. rewrite E.
  destruct (startswith "." ext); cbn [negb].
  - rewrite append_nil_l. split; [exact Ha|]. split; [exact Hn|].
    now rewrite (lower_ascii_string _ Ha).
  - change ("." +:+ ascii_lower ext) with (String "."%char (ascii_lower ext)).
    assert (Ha' : is_ascii (String "."%char (ascii_lower ext)) = true)
      by (cbn [is_ascii]; now rewrite Ha).
    split; [exact Ha'|]. split; [cbn [no_upper]; now rewrite Hn|].
    rewrite (lower_ascii_string _ Ha'). cbn [ascii_lower]. now rewrite Hi.
Qed.

Lemma normalize_ext_idem ext :
  is_ascii ext = true ->
  normalize_ext (normalize_ext ext) = normalize_ext ext.
Proof.
  intros H. destruct (normalize_ext_ascii ext H) as (_ & _ & _ & Hl).
  unfold normalize_ext at 1. now rewrite normalize_ext_dotted, Hl.
Qed.

Lemma same_extension_normalize s t :
  same_extension s t ->
  is_ascii s = true /\ is_ascii t = true
  /\ normalize_ext s = normalize_ext t.
Proof.
  induction 1 as [s t Hs Hv | s Hs Hd
                 | s t _ (IHs & IHt & IH)
                 | s t u _ (IH1s & IH1t & IH1) _ (IH2t & IH2u & IH2)].
  - destruct (case_variant_lower s t Hv Hs) as [Hl Ht].
    split; [exact Hs|]. split; [exact Ht|].
    destruct (normalize_ext_ascii s Hs) as (-> & _).
    destruct (normalize_ext_ascii t Ht) as (-> & _).
    destruct (ascii_lower_facts s Hs) as (_ & _ & _ & <-).
    destruct (ascii_lower_facts t Ht) as (_ & _ & _ & <-).
    now rewrite Hl.
  - assert (Hs' : is_ascii ("." +:+ s) = true)
      by (change ("." +:+ s) with (String "."%char s); cbn [is_ascii];
          now rewrite Hs).
    split; [exact Hs|]. split; [exact Hs'|].
    destruct (normalize_ext_ascii s Hs) as (-> & _).
    destruct (normalize_ext_ascii _ Hs') as (-> & _).
    rewrite Hd. cbn [negb].
    replace (startswith "." ("." +:+ s)) with true
      by (symmetry; apply startswith_dot; now exists s).
    reflexivity.
  - auto.
  - split; [exact IH1s|]. split; [exact IH2u|]. now rewrite IH1.
Qed.

Lemma ext_set_same l1 l2 :
  Forall2 same_extension l1 l2 -> ext_set l1 = ext_set l2.
Proof.
  intros H. unfold ext_set. f_equal.
  induction H as [|s t l1 l2 Hst _ IH]; [reflexivity|].
  destruct (same_extension_normalize s t Hst) as (_ & _ & E).
  cbn [map]. now rewrite E, IH.
Qed.

Lemma same_extension_all_ascii l1 l2 :
  Forall2 same_extension l1 l2 -> forall x, In x l1 -> is_ascii x = true.
Proof.
  induction 1 as [|x y k1 k2 Hxy _ IH]; intros z Hz; [destruct Hz|].
  destruct Hz as [<-|Hz]; [|now apply IH].
  now destruct (same_extension_normalize x y Hxy).
Qed.

Lemma elem_of_ext_set e l :
  e ∈ ext_set l <-> exists s, In s l /\ e = normalize_ext s.
Proof.
  unfold ext_set. rewrite elem_of_list_to_set, list_elem_of_In, in_map_iff.
  split; intros (s & H1 & H2); exists s; auto.
Qed.

Lemma ext_set_entries e l :
  e ∈ ext_set l -> e <> "" /\ startswith "." e = true.
Proof.
  intros (s & _ & ->)%elem_of_ext_set.
  auto using normalize_ext_nonempty, normalize_ext_dotted.
Qed.

End ExtensionFacts.

(** ** The order of the sorter *)

Lemma string_ltb_leb (x y : string) :
  String.ltb y x = false <-> String.leb x y = true.
Proof.
  unfold String.ltb, String.leb. rewrite (String.compare_antisym x y).
  destruct (String.compare y x); cbn; split; congruence.
Qed.

Lemma key_ltb_record_le x y :
  key_ltb (sort_key y) (sort_key x) = false <-> record_le x y.
Proof.
  unfold key_ltb, sort_key, record_le.
  destruct (Z.eqb_spec (item2 y) (item2 x)) as [E2|E2]; cbn [negb].
  2: { rewrite Z.ltb_ge. lia. }
  destruct (Z.eqb_spec (item1 y) (item1 x)) as [E1|E1]; cbn [negb].
  2: { rewrite Z.ltb_ge. lia. }
  destruct (Z.eqb_spec (item3 y) (item3 x)) as [E3|E3]; cbn [negb].
  2: { rewrite Z.ltb_ge. lia. }
  rewrite string_ltb_leb. split.
  - intros H. right. split; [lia|]. right. split; [lia|]. right. split; [lia|].
    exact H.
  - intros [H|(_ & [H|(_ & [H|(_ & H)])])]; solve [lia | exact H].
Qed.

Lemma string_leb_trans (x y z : string) :
  String.leb x y = true -> String.leb y z = true -> String.leb x z = true.
Proof.
  intros H1 H2. apply Is_true_true.
  apply Is_true_true in H1, H2.
  exact (@transitivity _ String.le _ x y z H1 H2).
Qed.

Lemma record_le_trans x y z : record_le x y -> record_le y z -> record_le x z.
Proof.
  unfold record_le.
  intros [H|(E2 & [H|(E1 & [H|(E3 & H)])])]
         [K|(F2 & [K|(F1 & [K|(F3 & K)])])];
    try solve [left; lia
              | right; split; [lia|]; left; lia
              | right; split; [lia|]; right; split; [lia|]; left; lia].
  right. split; [lia|]. right. split; [lia|]. right. split; [lia|].
  exact (string_leb_trans _ _ _ H K).
Qed.

Lemma record_le_total x y : record_le x y \/ record_le y x.
Proof.
  unfold record_le.
  destruct (Z.lt_trichotomy (item2 x) (item2 y)) as [H|[E2|H]];
    [left; left; exact H | | right; left; exact H].
  destruct (Z.lt_trichotomy (item1 x) (item1 y)) as [H|[E1|H]];
    [left; right; split; [exact E2|]; left; exact H |
    | right; right; split; [lia|]; left; exact H].
  destruct (Z.lt_trichotomy (item3 x) (item3 y)) as [H|[E3|H]];
    [left; right; split; [exact E2|]; right; split; [exact E1|]; left; exact H |
    | right; right; split; [lia|]; right; split; [lia|]; left; exact H].
  destruct (leb_total (item0 x) (item0 y)) as [H|H].
  - left. right. split; [exact E2|]. right. split; [exact E1|].
    right. split; [exact E3 | exact H].
  - right. right. split; [lia|]. right. split; [lia|].
    right. split; [lia | exact H].
Qed.

Lemma insert_sorted_perm x l : Permutation (x :: l) (insert_sorted x l).
Proof.
  induction l as [|y l IH]; cbn [insert_sorted]; [reflexivity|].
  destruct (key_ltb (sort_key y) (sort_key x)); [|reflexivity].
  rewrite perm_swap. now apply perm_skip.
Qed.

Lemma list_sort_cons x l : list_sort (x :: l) = insert_sorted x (list_sort l).
Proof. reflexivity. Qed.

Lemma list_sort_perm l : Permutation l (list_sort l).
Proof.
  induction l as [|x l IH]; [reflexivity|].
  rewrite list_sort_cons, <- insert_sorted_perm. now apply perm_skip.
Qed.

Lemma insert_sorted_sorted x l :
  StronglySorted record_le l -> StronglySorted record_le (insert_sorted x l).
Proof.
  induction 1 as [|y l Hs IH Hy]; cbn [insert_sorted].
  - constructor; constructor.
  - pose proof (proj1 (List.Forall_forall (record_le y) l) Hy) as Hy'.
    destruct (key_ltb (sort_key y) (sort_key x)) eqn:Hk.
    + constructor; [exact IH|].
      assert (Hyx : record_le y x).
      { destruct (record_le_total y x) as [H|H]; [exact H|].
        apply key_ltb_record_le in H. congruence. }
      apply List.Forall_forall. intros z Hz.
      apply (Permutation_in _ (Permutation_sym (insert_sorted_perm x l))) in Hz.
      destruct Hz as [<-|Hz]; [exact Hyx | now apply Hy'].
    + apply key_ltb_record_le in Hk.
      constructor; [now constructor|].
      constructor; [exact Hk|].
      apply List.Forall_forall. intros z Hz.
      apply (record_le_trans x y z Hk). now apply Hy'.
Qed.

Lemma list_sort_sorted l : StronglySorted record_le (list_sort l).
Proof.
  induction l as [|x l IH]; [constructor|].
  rewrite list_sort_cons. now apply insert_sorted_sorted.
Qed.

(** ** Computations and the relations they respect *)

Lemma bind_returned {A B} (m : M A) (k : A -> M B) w b w' :
  bind m k w = (Returned b, w') ->
  exists a w1, m w = (Returned a, w1) /\ k a w1 = (Returned b, w').
Proof.
  unfold bind. destruct (m w) as [[a|e] w1]; [eauto | discriminate].
Qed.

Section Respects.
Variable R : world -> world -> Prop.
Hypothesis R_refl : forall w, R w w.
Hypothesis R_trans : forall w1 w2 w3, R w1 w2 -> R w2 w3 -> R w1 w3.

Lemma respects_ret {A} (a : A) : respects R (ret a).
Proof. intros w. apply R_refl. Qed.

Lemma respects_raise {A} e : respects R (@raise A e).
Proof. intros w. apply R_refl. Qed.

Lemma respects_bind {A B} (m : M A) (k : A -> M B) :
  respects R m -> (forall a, respects R (k a)) -> respects R (bind m k).
Proof.
  intros Hm Hk w. unfold bind. specialize (Hm w).
  destruct (m w) as [[a|e] w1]; cbn [snd] in *; [|exact Hm].
  exact (R_trans _ _ _ Hm (Hk a w1)).
Qed.

Lemma respects_for_each {A S} (body : S -> A -> M S) l :
  (forall s x, respects R (body s x)) -> forall s, respects R (for_each body l s).
Proof.
  intros Hb. induction l as [|x l IH]; intros s; cbn [for_each].
  - apply respects_ret.
  - apply respects_bind; [apply Hb | exact IH].
Qed.

End Respects.

Lemma keeps_files_refl w : keeps_files w w.
Proof. intros p old H. exists "". now rewrite append_empty_r. Qed.

Lemma keeps_files_trans w1 w2 w3 :
  keeps_files w1 w2 -> keeps_files w2 w3 -> keeps_files w1 w3.
Proof.
  intros H12 H23 p old H.
  destruct (H12 p old H) as [r1 H1]. destruct (H23 p _ H1) as [r2 H2].
  exists (r1 +:+ r2). now rewrite <- append_assoc.
Qed.

Lemma untouched_refl q w : untouched q w w.
Proof. reflexivity. Qed.

Lemma untouched_trans q w1 w2 w3 :
  untouched q w1 w2 -> untouched q w2 w3 -> untouched q w1 w3.
Proof. unfold untouched. intros H12 H23. now rewrite H23, H12. Qed.

Lemma keeps_files_same w w' : w_files w' = w_files w -> keeps_files w w'.
Proof. intros H. unfold keeps_files. rewrite H. apply keeps_files_refl. Qed.

Lemma untouched_same q w w' : w_files w' = w_files w -> untouched q w w'.
Proof. unfold untouched. now intros ->. Qed.

Lemma write_append_keeps p s : respects keeps_files (write_append p s).
Proof.
  intros w q old H. cbn.
  destruct (decide (q = p)) as [->|Hne].
  - rewrite H. cbn. exists s. apply lookup_insert_eq.
  - exists "". rewrite append_empty_r, lookup_insert_ne by congruence. exact H.
Qed.

Lemma write_append_outside p q s :
  q <> p -> respects (untouched q) (write_append p s).
Proof. intros Hq w. unfold untouched. cbn. apply lookup_insert_ne. congruence. Qed.

(** The header of a report: what it does to the report and to the rest. *)
Lemma start_report_returns p header w :
  fst (start_report p header w) = Returned tt
  /\ w_files (snd (start_report p header w)) !! p
     = Some (opened (w_files w !! p) header)
  /\ (forall q, q <> p -> untouched q w (snd (start_report p header w))).
Proof.
  unfold start_report, bind, path_exists, opened.
  destruct (w_files w !! p) as [old|] eqn:Hp.
  - rewrite bool_decide_eq_true_2 by eauto. cbn [negb].
    repeat split.
    + cbn. rewrite Hp. cbn. now rewrite lookup_insert_eq.
    + intros q Hq. now apply write_append_outside.
  - rewrite bool_decide_eq_false_2 by (intros [? ?]; congruence). cbn [negb].
    repeat split.
    + cbn. apply lookup_insert_eq.
    + intros q Hq. unfold untouched. cbn. apply lookup_insert_ne. congruence.
Qed.

Lemma start_report_keeps p header : respects keeps_files (start_report p header).
Proof.
  intros w q old H.
  destruct (start_report_returns p header w) as (_ & Hp & Hout).
  destruct (decide (q = p)) as [->|Hne].
  - rewrite Hp, H. cbn. eauto.
  - rewrite (Hout q Hne), H. exists "". now rewrite append_empty_r.
Qed.

(** One step of a proof that a computation only appends: the first goal
    is the computation bound first, the second what follows it. *)
Ltac keeps_step :=
  apply respects_bind; [exact keeps_files_trans | | intros ?].

Ltac keeps_done :=
  first [apply respects_ret | apply respects_raise]; exact keeps_files_refl.

Section WalkerRespects.
Context {L : PyLib}.
Variable R : world -> world -> Prop.
Hypothesis R_refl : forall w, R w w.
Hypothesis R_trans : forall w1 w2 w3, R w1 w2 -> R w2 w3 -> R w1 w3.
Variable write_file : string.
Hypothesis R_append : forall s, respects R (write_append write_file s).

Lemma visit_file_respects self start_date end_date root acc file :
  respects R (visit_file self write_file start_date end_date root acc file).
Proof.
  unfold visit_file.
  destruct (f_stat file) as [st|]; [|now apply respects_ret].
  destruct (_extensions self) as [exts|]; [|now apply respects_raise].
  destruct (bool_decide (exts <> ∅) && _); [now apply respects_ret|].
  destruct (in_window _ _ _ _ _); [|now apply respects_ret].
  apply respects_bind; [exact R_trans | apply R_append |].
  intros _. now apply respects_ret.
Qed.

Lemma walker_respects self walk : respects R (_walker self walk write_file).
Proof.
  unfold _walker.
  apply respects_bind; [exact R_trans | | intros r; now apply respects_ret].
  apply respects_for_each; [exact R_refl | exact R_trans |].
  intros acc d.
  apply respects_for_each; [exact R_refl | exact R_trans |].
  intros acc' file. apply visit_file_respects.
Qed.

End WalkerRespects.

Section RunFacts.
Context {L : PyLib}.

Lemma walker_keeps self walk write_file :
  respects keeps_files (_walker self walk write_file).
Proof.
  apply walker_respects;
    [exact keeps_files_refl | exact keeps_files_trans | apply write_append_keeps].
Qed.

Lemma walker_outside self walk write_file q :
  q <> write_file -> respects (untouched q) (_walker self walk write_file).
Proof.
  intros Hq. apply walker_respects;
    [apply untouched_refl | apply untouched_trans
    | intros s; now apply write_append_outside].
Qed.

Lemma sorter_outside list_file table_file files_list q :
  q <> list_file -> q <> table_file ->
  respects (untouched q) (_sorter list_file table_file files_list).
Proof.
  intros H1 H2. unfold _sorter.
  apply respects_bind;
    [apply untouched_trans | now apply write_append_outside
    | intros _; now apply write_append_outside].
Qed.

Lemma sorter_keeps list_file table_file files_list :
  respects keeps_files (_sorter list_file table_file files_list).
Proof. unfold _sorter. keeps_step; apply write_append_keeps. Qed.

Lemma abspath_keeps p : respects keeps_files (abspath p).
Proof. intros w. apply keeps_files_refl. Qed.

Lemma chdir_keeps p : respects keeps_files (chdir p).
Proof. intros w. now apply keeps_files_same. Qed.

Lemma getcwd_keeps : respects keeps_files getcwd.
Proof. intros w. apply keeps_files_refl. Qed.

Lemma print_keeps s : respects keeps_files (print s).
Proof. intros w. now apply keeps_files_same. Qed.

(** The part of [find_files] after the header of the primary report. *)
Lemma sorted_part_keeps (sort : bool) out header files_list :
  respects keeps_files
    (if sort
     then
       start_report (path_join out "founded_list_sorted.txt")
                    (drop_last 67 header +:+ nl +:+ nl) ;;;
       start_report (path_join out "founded_table_sorted.txt") header ;;;
       match files_list with
       | Some files_list =>
         _sorter (path_join out "founded_list_sorted.txt")
                 (path_join out "founded_table_sorted.txt") files_list
       | None => raise AttributeError
       end
     else ret tt).
Proof.
  destruct sort; [|keeps_done].
  keeps_step; [apply start_report_keeps|].
  keeps_step; [apply start_report_keeps|].
  destruct files_list; [apply sorter_keeps | keeps_done].
Qed.

Lemma find_files_keeps self now_run walk :
  respects keeps_files (find_files self now_run walk).
Proof.
  unfold find_files.
  keeps_step.
  { destruct (str_truthy (_output_info_to self)); [|keeps_done].
    keeps_step; [apply abspath_keeps | keeps_done]. }
  keeps_step.
  { destruct (str_truthy (_root self)); [apply chdir_keeps | keeps_done]. }
  keeps_step; [apply getcwd_keeps|].
  keeps_step; [apply abspath_keeps|].
  keeps_step; [apply start_report_keeps|].
  keeps_step; [apply walker_keeps|].
  keeps_step; [apply sorted_part_keeps|].
  keeps_step; [apply print_keeps|].
  keeps_step; [apply print_keeps|].
  keeps_done.
Qed.

End RunFacts.

(** ** The three reports of a run *)

Lemma path_join_neq out a b :
  startswith "/" a = false -> startswith "/" b = false -> a <> b ->
  path_join out a <> path_join out b.
Proof.
  intros Ha Hb Hne. unfold path_join. rewrite Ha, Hb.
  destruct (String.eqb out "" || endswith_sep out); intros H.
  - apply String.app_inj in H. contradiction.
  - apply String.app_inj in H. apply String.app_inj in H. contradiction.
Qed.

Lemma report_paths_distinct out :
  path_join out "founded_list_sorted.txt" <> path_join out "founded_table.txt"
  /\ path_join out "founded_table_sorted.txt" <> path_join out "founded_table.txt"
  /\ path_join out "founded_table_sorted.txt"
     <> path_join out "founded_list_sorted.txt".
Proof.
  repeat split; apply path_join_neq; solve [reflexivity | discriminate].
Qed.

Section RunReports.
Context {L : PyLib}.

Lemma returned_world {A} (m : M A) w a w' : m w = (Returned a, w') -> w' = snd (m w).
Proof. now intros ->. Qed.

(** A run that returns: which object it leaves and what the three reports
    and the other files hold. *)
Lemma find_files_returned self now_run walk w self' w' :
  find_files self now_run walk w = (Returned self', w') ->
  exists root out,
    self' = mk_finder (Some root) (Some out) (_start_date self)
                      (_end_date self) (_sort_info self) (_extensions self)
    /\ (exists rest,
          w_files w' !! path_join out "founded_table.txt"
          = Some (opened (w_files w !! path_join out "founded_table.txt")
                         (starting_text now_run self') +:+ rest))
    /\ (_sort_info self = true ->
          (exists rest,
             w_files w' !! path_join out "founded_list_sorted.txt"
             = Some (opened (w_files w !! path_join out "founded_list_sorted.txt")
                            (drop_last 67 (starting_text now_run self')
                             +:+ nl +:+ nl) +:+ rest))
          /\ (exists rest,
                w_files w' !! path_join out "founded_table_sorted.txt"
                = Some (opened (w_files w !! path_join out "founded_table_sorted.txt")
                               (starting_text now_run self') +:+ rest)))
    /\ (forall q,
          q <> path_join out "founded_table.txt" ->
          (_sort_info self = false
           \/ (q <> path_join out "founded_list_sorted.txt"
               /\ q <> path_join out "founded_table_sorted.txt")) ->
          w_files w' !! q = w_files w !! q).
Proof.
  intros H. unfold find_files in H.
  apply bind_returned in H as (out1 & w1 & H1 & H).
  apply bind_returned in H as ([] & w2 & H2 & H).
  apply bind_returned in H as (root & w3 & H3 & H).
  apply bind_returned in H as (out & w4 & H4 & H).
  apply bind_returned in H as ([] & w5 & H5 & H).
  apply bind_returned in H as (r & w6 & H6 & H).
  apply bind_returned in H as ([] & w7 & H7 & H).
  apply bind_returned in H as ([] & w8 & H8 & H).
  apply bind_returned in H as ([] & w9 & H9 & H).
  injection H as <- <-.
  assert (F1 : w_files w1 = w_files w).
  { destruct (str_truthy (_output_info_to self)).
    - apply bind_returned in H1 as (p & w0 & Ha & Hb).
      injection Ha as _ <-. now injection Hb as _ <-.
    - now injection H1 as _ <-. }
  assert (F2 : w_files w2 = w_files w1).
  { destruct (str_truthy (_root self)); now injection H2 as <-. }
  injection H3 as _ <-. injection H4 as _ <-.
  assert (F4 : w_files w2 = w_files w) by congruence.
  assert (F9 : w_files w9 = w_files w7).
  { injection H9 as <-. now injection H8 as <-. }
  clear H1 H2 H8 H9 F1 F2.
  exists root, out. split; [reflexivity|].
  set (self'' := mk_finder (Some root) (Some out) (_start_date self)
                           (_end_date self) (_sort_info self) (_extensions self)) in *.
  set (header := starting_text now_run self'') in *.
  set (wt := path_join out "founded_table.txt") in *.
  set (wl := path_join out "founded_list_sorted.txt") in *.
  set (ws := path_join out "founded_table_sorted.txt") in *.
  destruct (report_paths_distinct out) as (Dlt & Dst & Dsl).
  fold wt wl ws in Dlt, Dst, Dsl.
  destruct (start_report_returns wt header w2) as (_ & T5 & O5).
  apply returned_world in H5. rewrite <- H5 in T5, O5.
  pose proof (walker_keeps self'' walk wt w5) as K6.
  rewrite H6 in K6. cbn [snd] in K6.
  pose proof (sorted_part_keeps (_sort_info self) out header (snd r) w6) as K7.
  cbn [_sort_info self''] in H7. fold wl ws in K7. rewrite H7 in K7.
  cbn [snd] in K7.
  split; [|split].
  - destruct (K6 _ _ T5) as [r1 E1]. destruct (K7 _ _ E1) as [r2 E2].
    exists (r1 +:+ r2). rewrite F9, E2, F4. now rewrite append_assoc.
  - intros Hsort. rewrite Hsort in H7.
    apply bind_returned in H7 as ([] & wa & Ha & H7).
    apply bind_returned in H7 as ([] & wb & Hb & H7).
    assert (U6 : forall q, q <> wt -> w_files w6 !! q = w_files w !! q).
    { intros q Hq.
      pose proof (walker_outside self'' walk wt q Hq w5) as U.
      rewrite H6 in U. unfold untouched in U. cbn [snd] in U.
      rewrite U, (O5 q Hq). now rewrite F4. }
    destruct (start_report_returns wl (drop_last 67 header +:+ nl +:+ nl) w6)
      as (_ & Ta & Oa).
    apply returned_world in Ha. rewrite <- Ha in Ta, Oa.
    destruct (start_report_returns ws header wa) as (_ & Tb & Ob).
    apply returned_world in Hb. rewrite <- Hb in Tb, Ob.
    assert (Kc : keeps_files wb w7).
    { destruct (snd r) as [files_list|]; [|discriminate H7].
      pose proof (sorter_keeps wl ws files_list wb) as K.
      now rewrite H7 in K. }
    split.
    + rewrite (U6 wl Dlt) in Ta.
      pose proof (start_report_keeps ws header wa) as Kb.
      rewrite <- Hb in Kb.
      destruct (Kb _ _ Ta) as [r1 E1]. destruct (Kc _ _ E1) as [r2 E2].
      exists (r1 +:+ r2). rewrite F9, E2. now rewrite append_assoc.
    + rewrite (Oa ws Dsl), (U6 ws Dst) in Tb.
      destruct (Kc _ _ Tb) as [r2 E2].
      exists r2. now rewrite F9, E2.
  - intros q Hq Hs.
    pose proof (walker_outside self'' walk wt q Hq w5) as U.
    rewrite H6 in U. unfold untouched in U. cbn [snd] in U.
    rewrite F9. transitivity (w_files w6 !! q).
    2: { rewrite U, (O5 q Hq). now rewrite F4. }
    destruct (_sort_info self) eqn:Hsort.
    + destruct Hs as [Hs|[Hl Hs]]; [discriminate Hs|].
      apply bind_returned in H7 as ([] & wa & Ha & H7).
      apply bind_returned in H7 as ([] & wb & Hb & H7).
      destruct (start_report_returns wl (drop_last 67 header +:+ nl +:+ nl) w6)
        as (_ & _ & Oa).
      apply returned_world in Ha. rewrite <- Ha in Oa.
      destruct (start_report_returns ws header wa) as (_ & _ & Ob).
      apply returned_world in Hb. rewrite <- Hb in Ob.
      destruct (snd r) as [files_list|]; [|discriminate H7].
      pose proof (sorter_outside wl ws files_list q Hl Hs wb) as Uc.
      rewrite H7 in Uc. unfold untouched in Uc. cbn [snd] in Uc.
      rewrite Uc, (Ob q Hs), (Oa q Hl). reflexivity.
    + now injection H7 as <-.
Qed.

End RunReports.

(** ** Files without an extension under a filter *)

Lemma bind_ext {A B} (m : M A) (k k' : A -> M B) w :
  (forall a w1, k a w1 = k' a w1) -> bind m k w = bind m k' w.
Proof.
  intros H. unfold bind. destruct (m w) as [[a|e] w1]; [apply H | reflexivity].
Qed.

Section Extensionless.
Context {L : PyLib}.

Lemma file_match_extensionless exts start_date end_date root file :
  exts <> ∅ -> "" ∉ exts ->
  splitext_ext root (f_name file) = "" ->
  file_match exts start_date end_date root file = None.
Proof.
  intros Hne Hin Hext. unfold file_match.
  destruct (f_stat file) as [st|]; [|reflexivity].
  unfold splitext_ext in Hext. cbn zeta. rewrite Hext.
  change (lower "") with "".
  rewrite bool_decide_eq_true_2 by exact Hne.
  rewrite bool_decide_eq_false_2 by exact Hin.
  reflexivity.
Qed.

Lemma walk_matches_without_extensionless exts start_date end_date walk :
  exts <> ∅ -> "" ∉ exts ->
  walk_matches exts start_date end_date (without_extensionless walk)
  = walk_matches exts start_date end_date walk.
Proof.
  intros Hne Hin. unfold walk_matches, without_extensionless.
  induction walk as [|d walk IH]; [reflexivity|].
  cbn [map flat_map d_root d_files]. rewrite IH. f_equal.
  generalize (d_files d) as files.
  induction files as [|file files IHf]; [reflexivity|].
  cbn [List.filter].
  destruct (String.eqb_spec (splitext_ext (d_root d) (f_name file)) "") as [E|E];
    cbn [negb omap list_omap].
  - rewrite (file_match_extensionless _ _ _ _ _ Hne Hin E). exact IHf.
  - now rewrite IHf.
Qed.

Lemma walker_without_extensionless self exts walk write_file w :
  _extensions self = Some exts -> exts <> ∅ -> "" ∉ exts ->
  _walker self (without_extensionless walk) write_file w
  = _walker self walk write_file w.
Proof.
  intros He Hne Hin.
  rewrite !(walker_filtered self exts) by exact He.
  now rewrite walk_matches_without_extensionless.
Qed.

Lemma find_files_same_walk self now_run walk walk' w :
  (forall self'' write_file w0,
     _extensions self'' = _extensions self ->
     _walker self'' walk' write_file w0 = _walker self'' walk write_file w0) ->
  find_files self now_run walk' w = find_files self now_run walk w.
Proof.
  intros Hw. unfold find_files.
  apply bind_ext. intros out1 w1.
  apply bind_ext. intros _ w2.
  apply bind_ext. intros root w3.
  apply bind_ext. intros out w4.
  apply bind_ext. intros _ w5.
  unfold bind at 1 4. now rewrite Hw.
Qed.

End Extensionless.

(** ** What [__init__] leaves in the object *)

Section InitFacts.
Context {L : PyLib}.

Lemma init_fields now_start now_end root start_date end_date include_time
    output_info_to extensions sort_info self :
  __init__ now_start now_end root start_date end_date include_time
           output_info_to extensions sort_info = Returned self ->
  _extensions self
  = (if ext_truthy extensions then Some (ext_set (ext_items extensions)) else None)
  /\ _sort_info self = sort_info
  /\ (str_truthy start_date = false ->
      _start_date self = mk_datetime (ordinal now_start - 7) 0 0 0 0)
  /\ (str_truthy end_date = false ->
      _end_date self
      = if include_time then now_end
        else mk_datetime (ordinal now_end) 23 59 59 (microsecond now_end)).
Proof.
  unfold __init__, sub_days.
  destruct (str_truthy start_date);
    [destruct (strptime _ _) as [ds|]; [|discriminate]
    |destruct ((0 <? ordinal now_start - 7) && _); [|discriminate]];
    (destruct (str_truthy end_date);
       [destruct (strptime _ _) as [de|]; [|discriminate]|]);
    intros H; injection H as <-; cbn;
    repeat split; try discriminate; try reflexivity;
    intros _; now destruct include_time.
Qed.

Lemma walk_matches_In exts start_date end_date walk i :
  In i (walk_matches exts start_date end_date walk)
  <-> exists d file,
        In d walk /\ In file (d_files d)
        /\ file_match exts start_date end_date (d_root d) file = Some i.
Proof.
  unfold walk_matches. rewrite in_flat_map. split.
  - intros (d & Hd & Hi). apply list_elem_of_In, list_elem_of_omap in Hi.
    destruct Hi as (file & Hf & Hm). apply list_elem_of_In in Hf. eauto.
  - intros (d & file & Hd & Hf & Hm). exists d. split; [exact Hd|].
    apply list_elem_of_In, list_elem_of_omap. exists file.
    split; [now apply list_elem_of_In | exact Hm].
Qed.

Lemma in_window_spec start_date end_date mtime ctime atime :
  in_window start_date end_date mtime ctime atime = true
  <-> (start_date < mtime < end_date)
      \/ (start_date < ctime < end_date)
      \/ (start_date < atime < end_date).
Proof.
  unfold in_window.
  rewrite !orb_true_iff, !andb_true_iff, !Z.ltb_lt. tauto.
Qed.

End InitFacts.

(** ** What the appends leave in a file *)

Lemma append_lines_lookup p lines w :
  w_files (append_lines p lines w) !! p = appended (w_files w !! p) lines.
Proof.
  destruct lines as [|s lines]; [reflexivity|].
  rewrite append_lines_cons.
  destruct (append_lines_files p lines (snd (write_append p s w)))
    as (_ & _ & _ & H).
  rewrite (H (default "" (w_files w !! p) +:+ s))
    by (cbn; apply lookup_insert_eq).
  cbn [appended text_of fold_right]. now rewrite append_assoc.
Qed.

Lemma join_lines_newline {A} (f : A -> string) x l :
  join nl (map f (x :: l)) +:+ nl
  = text_of (map (fun i => f i +:+ nl) (x :: l)).
Proof.
  revert x. induction l as [|y l IH]; intros x.
  - cbn [map join text_of fold_right]. now rewrite append_empty_r.
  - change (join nl (map f (x :: y :: l)))
      with (f x +:+ nl +:+ join nl (map f (y :: l))).
    rewrite !append_assoc, IH. cbn [map text_of fold_right].
    now rewrite !append_assoc.
Qed.

Lemma join_lines_between {A} (f : A -> string) x l :
  join nl (map f (x :: l)) = f x +:+ text_of (map (fun i => nl +:+ f i) l).
Proof.
  revert x. induction l as [|y l IH]; intros x.
  - cbn [map join text_of fold_right]. now rewrite append_empty_r.
  - change (join nl (map f (x :: y :: l)))
      with (f x +:+ nl +:+ join nl (map f (y :: l))).
    rewrite IH. cbn [map text_of fold_right]. now rewrite !append_assoc.
Qed.

Section NoneThere.
Context {L : PyLib}.

Lemma walk_matches_none_there exts start_date end_date walk :
  some_file_there walk = false ->
  walk_matches exts start_date end_date walk = [].
Proof.
  unfold some_file_there, walk_matches.
  induction walk as [|d walk IH]; [reflexivity|].
  cbn [existsb flat_map]. intros H. apply orb_false_iff in H as [Hd Hw].
  rewrite (IH Hw), app_nil_r. clear IH Hw.
  induction (d_files d) as [|file files IHf]; [reflexivity|].
  cbn [existsb] in Hd. apply orb_false_iff in Hd as [Hf Hfs].
  cbn [omap list_omap]. rewrite (IHf Hfs).
  unfold file_match, is_there in *. now destruct (f_stat file).
Qed.

End NoneThere.

Section SorterBlocks.
Context {L : PyLib}.

Lemma sorter_files list_file table_file files_list w :
  table_file <> list_file ->
  w_files (snd (_sorter list_file table_file files_list w)) !! list_file
  = Some (default "" (w_files w !! list_file)
          +:+ join nl (map info (list_sort files_list)) +:+ nl +:+ nl)
  /\ w_files (snd (_sorter list_file table_file files_list w)) !! table_file
     = Some (default "" (w_files w !! table_file)
             +:+ join nl (map info_table (list_sort files_list)))
  /\ w_cwd (snd (_sorter list_file table_file files_list w)) = w_cwd w
  /\ w_stdout (snd (_sorter list_file table_file files_list w)) = w_stdout w.
Proof.
  intros Hne. unfold _sorter, bind, write_append. cbn.
  rewrite lookup_insert_ne by congruence. rewrite lookup_insert_eq.
  rewrite (lookup_insert_ne _ list_file table_file) by congruence.
  rewrite lookup_insert_eq. repeat split; reflexivity.
Qed.

(** The two blocks [_sorter] joins, entry by entry. *)
Lemma list_block_text l :
  join nl (map info l) +:+ nl +:+ nl
  = match l with
    | [] => nl +:+ nl
    | _ => text_of (map (fun i =>
                           "file: " +:+ item0 i +:+ nl
                           +:+ "created: " +:+ time_ctime (item2 i) +:+ nl
                           +:+ "modified: " +:+ time_ctime (item1 i) +:+ nl
                           +:+ "accessed: " +:+ time_ctime (item3 i) +:+ nl
                           +:+ nl) l)
           +:+ nl
    end.
Proof.
  destruct l as [|x l]; [reflexivity|].
  rewrite <- append_assoc, join_lines_newline. f_equal. f_equal.
  apply map_ext. intros i. unfold info. now rewrite !append_assoc.
Qed.

Lemma table_block_text l :
  join nl (map info_table l)
  = match l with
    | [] => ""
    | x :: rest =>
      ("file=" +:+ item0 x +:+ "   |   "
       +:+ "mtime=" +:+ time_ctime (item2 x) +:+ "   |   "
       +:+ "ctime=" +:+ time_ctime (item1 x) +:+ "   |   "
       +:+ "atime=" +:+ time_ctime (item3 x))
      +:+ text_of (map (fun i =>
                          nl +:+ "file=" +:+ item0 i +:+ "   |   "
                          +:+ "mtime=" +:+ time_ctime (item2 i) +:+ "   |   "
                          +:+ "ctime=" +:+ time_ctime (item1 i) +:+ "   |   "
                          +:+ "atime=" +:+ time_ctime (item3 i)) rest)
    end.
Proof.
  destruct l as [|x l]; [reflexivity|].
  rewrite join_lines_between. reflexivity.
Qed.

End SorterBlocks.

(** * The properties of the specification *)

Section Traversal.
Context {L : PyLib}.

(** C1.  The date test of [_walker] holds exactly when one of the three
    timestamps lies strictly between the bounds.  With a filter set
    assigned, the traversal returns, and a visited file that exists and
    passes the extension filter is among the reported records exactly when
    one of its timestamps is strictly inside the window; a file whose
    timestamps all lie on a bound or beyond it is not reported. *)
Theorem walker_matches_strictly_inside_window self exts walk write_file w :
  _extensions self = Some exts ->
  let start_date := timestamp (_start_date self) in
  let end_date := timestamp (_end_date self) in
  (forall mtime ctime atime,
     in_window start_date end_date mtime ctime atime = true
     <-> (start_date < mtime < end_date)
         \/ (start_date < ctime < end_date)
         \/ (start_date < atime < end_date))
  /\ exists reported,
       _walker self walk write_file w
       = (Returned (length reported,
                    if _sort_info self then Some reported else None),
          append_lines write_file (map tuple_line reported) w)
       /\ forall d file st,
            In d walk -> In file (d_files d) -> f_stat file = Some st ->
            (exts = ∅ \/ lower (splitext_ext (d_root d) (f_name file)) ∈ exts) ->
            let i := mk_tuple (path_join (d_root d) (f_name file))
                              (st_mtime st) (st_ctime st) (st_atime st) in
            (In i reported
             <-> (start_date < st_mtime st < end_date)
                 \/ (start_date < st_ctime st < end_date)
                 \/ (start_date < st_atime st < end_date))
            /\ ((st_mtime st <= start_date \/ end_date <= st_mtime st) ->
                (st_ctime st <= start_date \/ end_date <= st_ctime st) ->
                (st_atime st <= start_date \/ end_date <= st_atime st) ->
                ~ In i reported).
Proof.
  intros He start_date end_date.
  split; [intros; apply in_window_spec|].
  exists (walk_matches exts start_date end_date walk).
  split; [now apply walker_filtered|].
  intros d file st Hd Hf Hst Hext i.
  assert (Hiff : In i (walk_matches exts start_date end_date walk)
                 <-> (start_date < st_mtime st < end_date)
                     \/ (start_date < st_ctime st < end_date)
                     \/ (start_date < st_atime st < end_date)).
  { rewrite walk_matches_In, <- in_window_spec. split.
    - intros (d' & file' & _ & _ & Hm). unfold file_match in Hm.
      destruct (f_stat file') as [st'|]; [|discriminate Hm].
      destruct (bool_decide (exts <> ∅) && _); [discriminate Hm|].
      destruct (in_window _ _ _ _ _) eqn:Hw; [|discriminate Hm].
      unfold i in Hm. injection Hm as _ Hm1 Hm2 Hm3.
      rewrite <- Hm1, <- Hm2, <- Hm3. exact Hw.
    - intros Hw. exists d, file. split; [exact Hd|]. split; [exact Hf|].
      unfold file_match. rewrite Hst. cbn zeta.
      replace (bool_decide (exts <> ∅) && _) with false.
      + now rewrite Hw.
      + symmetry. apply andb_false_iff. destruct Hext as [->|Hin].
        * left. now apply bool_decide_eq_false_2.
        * right. apply negb_false_iff. now apply bool_decide_eq_true_2. }
  split; [exact Hiff|].
  intros Hm Hc Ha Hin. apply Hiff in Hin. lia.
Qed.

(** C7.  With a filter set assigned the traversal returns.  Whenever it
    returns a count and a list, the count is the number of the listed
    files that are there, pass the extension filter and have a timestamp
    strictly inside the window; the list is the records of these files,
    in the order of the listings, when sorting was requested and [None]
    otherwise; and the walk has appended to the primary report the line
    of each of these files, in the same order and nothing else, and has
    touched no other file. *)
Theorem walker_returns_count_and_list self walk write_file w :
  (_extensions self <> None ->
   exists r w', _walker self walk write_file w = (Returned r, w'))
  /\ forall n files_list w',
       _walker self walk write_file w = (Returned (n, files_list), w') ->
       let reported :=
         walk_matches (default ∅ (_extensions self))
                      (timestamp (_start_date self))
                      (timestamp (_end_date self)) walk in
       n = length reported
       /\ (_sort_info self = true ->
           files_list = Some reported /\ length reported = n)
       /\ (_sort_info self = false -> files_list = None)
       /\ w_files w' !! write_file
          = appended (w_files w !! write_file)
              (map (fun i =>
                      "file=" +:+ item0 i +:+ " | "
                      +:+ "mtime=" +:+ time_ctime (item1 i) +:+ " | "
                      +:+ "ctime=" +:+ time_ctime (item2 i) +:+ " | "
                      +:+ "atime=" +:+ time_ctime (item3 i) +:+ nl)
                   reported)
       /\ (forall q, q <> write_file -> w_files w' !! q = w_files w !! q)
       /\ w_cwd w' = w_cwd w /\ w_stdout w' = w_stdout w.
Proof.
  split.
  - destruct (_extensions self) as [exts|] eqn:He; [intros _ | congruence].
    rewrite (walker_filtered self exts) by exact He. eauto.
  - intros n files_list w' H.
    destruct (_extensions self) as [exts|] eqn:He; cbv zeta.
    + rewrite (walker_filtered self exts) in H by exact He.
      injection H as <- <- <-.
      change (default ∅ (Some exts)) with exts.
      set (reported := walk_matches exts (timestamp (_start_date self))
                                    (timestamp (_end_date self)) walk).
      destruct (append_lines_files write_file (map tuple_line reported) w)
        as (Hc & Ho & Hq & _).
      split; [reflexivity|].
      split; [intros ->; split; reflexivity|].
      split; [intros ->; reflexivity|].
      split; [apply append_lines_lookup|].
      split; [exact Hq|]. split; [exact Hc | exact Ho].
    + rewrite walker_unset in H by exact He.
      fold (some_file_there walk) in H.
      destruct (some_file_there walk) eqn:Hthere; [discriminate H|].
      injection H as <- <- <-.
      rewrite (walk_matches_none_there _ _ _ _ Hthere).
      split; [reflexivity|].
      split; [intros ->; split; reflexivity|].
      split; [intros ->; reflexivity|].
      repeat split; reflexivity.
Qed.

(** Without a filter set the attribute [_extensions] does not exist, and
    the first visited file that is still there stops the traversal. *)
Lemma walker_raises_without_filter self walk write_file w :
  _extensions self = None ->
  (exists d file, In d walk /\ In file (d_files d) /\ is_there file = true) ->
  _walker self walk write_file w = (Raised AttributeError, w).
Proof.
  intros He (d & file & Hd & Hf & Ht).
  rewrite walker_unset by exact He.
  replace (existsb _ walk) with true; [reflexivity|].
  symmetry. apply existsb_exists. exists d. split; [exact Hd|].
  apply existsb_exists. eauto.
Qed.

End Traversal.

Lemma walker_matches_strictly_inside_window_witness :
  _extensions sample_finder = Some (@ext_set sample_lib ["txt"])
  /\ ((forall mtime ctime atime,
         in_window (@timestamp sample_lib (_start_date sample_finder))
                   (@timestamp sample_lib (_end_date sample_finder))
                   mtime ctime atime = true
         <-> (@timestamp sample_lib (_start_date sample_finder) < mtime
              < @timestamp sample_lib (_end_date sample_finder))
             \/ (@timestamp sample_lib (_start_date sample_finder) < ctime
                 < @timestamp sample_lib (_end_date sample_finder))
             \/ (@timestamp sample_lib (_start_date sample_finder) < atime
                 < @timestamp sample_lib (_end_date sample_finder)))
      /\ exists reported,
           @_walker sample_lib sample_finder sample_walk "/r/founded_table.txt"
                    (empty_world "/r")
           = (Returned (length reported,
                        if _sort_info sample_finder then Some reported else None),
              append_lines "/r/founded_table.txt"
                           (map (@tuple_line sample_lib) reported)
                           (empty_world "/r"))
           /\ forall d file st,
                In d sample_walk -> In file (d_files d) -> f_stat file = Some st ->
                (@ext_set sample_lib ["txt"] = ∅
                 \/ @lower sample_lib (splitext_ext (d_root d) (f_name file))
                    ∈ @ext_set sample_lib ["txt"]) ->
                (In (mk_tuple (path_join (d_root d) (f_name file))
                              (st_mtime st) (st_ctime st) (st_atime st)) reported
                 <-> (@timestamp sample_lib (_start_date sample_finder) < st_mtime st
                      < @timestamp sample_lib (_end_date sample_finder))
                     \/ (@timestamp sample_lib (_start_date sample_finder) < st_ctime st
                         < @timestamp sample_lib (_end_date sample_finder))
                     \/ (@timestamp sample_lib (_start_date sample_finder) < st_atime st
                         < @timestamp sample_lib (_end_date sample_finder)))
                /\ ((st_mtime st <= @timestamp sample_lib (_start_date sample_finder)
                     \/ @timestamp sample_lib (_end_date sample_finder) <= st_mtime st) ->
                    (st_ctime st <= @timestamp sample_lib (_start_date sample_finder)
                     \/ @timestamp sample_lib (_end_date sample_finder) <= st_ctime st) ->
                    (st_atime st <= @timestamp sample_lib (_start_date sample_finder)
                     \/ @timestamp sample_lib (_end_date sample_finder) <= st_atime st) ->
                    ~ In (mk_tuple (path_join (d_root d) (f_name file))
                                   (st_mtime st) (st_ctime st) (st_atime st))
                         reported)).
Proof.
  split; [reflexivity|].
  apply (@walker_matches_strictly_inside_window sample_lib sample_finder
           (@ext_set sample_lib ["txt"]) sample_walk "/r/founded_table.txt" (empty_world "/r")).
  reflexivity.
Defined.

Lemma walker_returns_count_and_list_witness :
  _extensions sample_finder <> None
  /\ (exists r w',
        @_walker sample_lib sample_finder sample_walk "/r/founded_table.txt"
                 sample_world = (Returned r, w'))
  /\ @_walker sample_lib sample_finder sample_walk "/r/founded_table.txt"
              sample_world
     = (Returned (1%nat, Some [sample_tuple]),
        snd (@_walker sample_lib sample_finder sample_walk
                      "/r/founded_table.txt" sample_world))
  /\ @walk_matches sample_lib (default ∅ (_extensions sample_finder))
                   (@timestamp sample_lib (_start_date sample_finder))
                   (@timestamp sample_lib (_end_date sample_finder))
                   sample_walk
     = [sample_tuple]
  /\ 1%nat = length [sample_tuple]
  /\ w_files (snd (@_walker sample_lib sample_finder sample_walk
                            "/r/founded_table.txt" sample_world))
     !! "/r/founded_table.txt"
     = Some ("earlier run" +:+ nl
             +:+ "file=/r/a.txt | mtime=1642154400000000 | ctime=1642068000000000 | atime=1642158000000000"
             +:+ nl).
Proof.
  assert (Hne : _extensions sample_finder <> None) by discriminate.
  assert (Hrun : @_walker sample_lib sample_finder sample_walk
                          "/r/founded_table.txt" sample_world
                 = (Returned (1%nat, Some [sample_tuple]),
                    snd (@_walker sample_lib sample_finder sample_walk
                                  "/r/founded_table.txt" sample_world)))
    by (vm_compute; reflexivity).
  assert (Hms : @walk_matches sample_lib (default ∅ (_extensions sample_finder))
                              (@timestamp sample_lib (_start_date sample_finder))
                              (@timestamp sample_lib (_end_date sample_finder))
                              sample_walk
                = [sample_tuple]) by (vm_compute; reflexivity).
  pose proof (@walker_returns_count_and_list sample_lib sample_finder
                sample_walk "/r/founded_table.txt" sample_world)
    as [Hreturns Hresult].
  destruct (Hresult _ _ _ Hrun) as (Hn & _ & _ & Hfile & _).
  split; [exact Hne|]. split; [exact (Hreturns Hne)|].
  split; [exact Hrun|]. split; [exact Hms|].
  split; [rewrite Hms in Hn; exact Hn|].
  rewrite Hfile, Hms. vm_compute. reflexivity.
Defined.

(** C2.  Constructed without extensions ([None], the default, or an empty
    list), the finder has no [_extensions] attribute and the run stops with
    [AttributeError] at the first file it visits, where every file should
    have been accepted. *)
Theorem run_without_extensions_raises :
  fst (@run sample_lib sample_now sample_now sample_now (Some "/r") None None
            false None ExtNone false sample_walk (empty_world "/home"))
  = Raised AttributeError
  /\ fst (@run sample_lib sample_now sample_now sample_now (Some "/r") None None
               false None (ExtCollection []) false sample_walk (empty_world "/home"))
     = Raised AttributeError.
Proof. split; vm_compute; reflexivity. Qed.

(** C3.  In the sorted table the field [mtime] carries the creation time
    and the field [ctime] the modification time, the other way round from
    the primary report and from the sorted list of the same run. *)
Theorem sorted_table_swaps_mtime_and_ctime :
  let w' := snd (@run sample_lib sample_now sample_now sample_now (Some "/r")
                      None None false None (ExtCollection ["txt"]) true
                      sample_walk (empty_world "/home")) in
  let header :=
    "script started at: day 738169 10:0:0.0" +:+ nl
    +:+ "start date: day 738162 0:0:0.0" +:+ nl
    +:+ "end date: day 738169 23:59:59.0" +:+ nl
    +:+ "     file     |     modified     |     created     |     accessed" +:+ nl in
  st_mtime (mk_stat 1642154400000000 1642068000000000 1642158000000000)
  = 1642154400000000
  /\ st_ctime (mk_stat 1642154400000000 1642068000000000 1642158000000000)
     = 1642068000000000
  /\ w_files w' !! "/r/founded_table.txt"
     = Some (header
             +:+ "file=/r/a.txt | mtime=1642154400000000 | ctime=1642068000000000 | atime=1642158000000000"
             +:+ nl)
  /\ w_files w' !! "/r/founded_table_sorted.txt"
     = Some (header
             +:+ "file=/r/a.txt   |   mtime=1642068000000000   |   ctime=1642154400000000   |   atime=1642158000000000").
Proof. repeat split; vm_compute; reflexivity. Qed.

Section Construction.
Context {L : PyLib}.

(** C4, as the code has it.  When [__init__] returns, an omitted lower
    bound is the clock reading minus seven days at 00:00:00.000000, and an
    omitted upper bound is the clock reading when [include_time] is set
    and the clock reading with its time of day put to 23:59:59
    (microseconds kept) when it is not.  [__init__] returns whenever each
    bound is omitted or parses. *)
Theorem default_window_bounds now_start now_end root start_date end_date
    include_time output_info_to extensions sort_info :
  (forall self,
     __init__ now_start now_end root start_date end_date include_time
              output_info_to extensions sort_info = Returned self ->
     (str_truthy start_date = false ->
      _start_date self = mk_datetime (ordinal now_start - 7) 0 0 0 0)
     /\ (str_truthy end_date = false ->
         _end_date self
         = if include_time then now_end
           else mk_datetime (ordinal now_end) 23 59 59 (microsecond now_end)))
  /\ ((if str_truthy start_date
       then strptime (default "" start_date) (date_format include_time) <> None
       else 0 < ordinal now_start - 7 <= MAXORDINAL) ->
      (str_truthy end_date = true ->
       strptime (default "" end_date) (date_format include_time) <> None) ->
      exists self,
        __init__ now_start now_end root start_date end_date include_time
                 output_info_to extensions sort_info = Returned self).
Proof.
  split.
  - intros self H. apply init_fields in H as (_ & _ & Hs & He). auto.
  - intros Hs He. unfold __init__, sub_days.
    destruct (str_truthy start_date).
    + destruct (strptime (default "" start_date) _) as [ds|]; [|congruence].
      destruct (str_truthy end_date); [|eauto].
      destruct (strptime (default "" end_date) _) as [de|]; [eauto|].
      now specialize (He eq_refl).
    + replace ((0 <? ordinal now_start - 7) && _) with true
        by (symmetry; apply andb_true_iff; split;
            [apply Z.ltb_lt | apply Z.leb_le]; lia).
      destruct (str_truthy end_date); [|eauto].
      destruct (strptime (default "" end_date) _) as [de|]; [eauto|].
      now specialize (He eq_refl).
Qed.

(** C8, as the code has it.  A non-empty start or end date string that
    does not parse makes [__init__] raise [ValueError]; the script stops
    there, before [find_files], and the world, report files included, is
    what it was. *)
Theorem unparseable_date_raises_before_any_report now_start now_end now_run
    root start_date end_date include_time output_info_to extensions sort_info
    walk w :
  0 < ordinal now_start - 7 <= MAXORDINAL ->
  (exists s, start_date = Some s /\ s <> ""
             /\ strptime s (date_format include_time) = None)
  \/ (exists s, end_date = Some s /\ s <> ""
                /\ strptime s (date_format include_time) = None) ->
  __init__ now_start now_end root start_date end_date include_time
           output_info_to extensions sort_info = Raised ValueError
  /\ run now_start now_end now_run root start_date end_date include_time
         output_info_to extensions sort_info walk w
     = (Raised ValueError, w).
Proof.
  intros Hclock Hbad.
  assert (Hinit : __init__ now_start now_end root start_date end_date
                           include_time output_info_to extensions sort_info
                  = Raised ValueError).
  { unfold __init__, sub_days. cbv zeta.
    destruct Hbad as [(s & -> & Hne & Hp) | (s & -> & Hne & Hp)].
    - cbn [str_truthy default].
      destruct (String.eqb_spec s ""); [contradiction|]. cbn [negb].
      change (id s) with s. now rewrite Hp.
    - assert (Hend : str_truthy (Some s) = true).
      { cbn. now destruct (String.eqb_spec s ""). }
      rewrite Hend. cbn [default]. change (id s) with s. rewrite Hp.
      destruct (str_truthy start_date).
      + now destruct (strptime (default "" start_date) _).
      + replace ((0 <? ordinal now_start - 7) && _) with true; [reflexivity|].
        symmetry. apply andb_true_iff.
        split; [apply Z.ltb_lt | apply Z.leb_le]; lia. }
  split; [exact Hinit|]. unfold run. now rewrite Hinit.
Qed.

(** C9, as the code has it.  Two collections of extensions in ASCII
    characters that are, item by item, spellings of the same extension
    (letters in another case; a dot in front of a string without one)
    leave the same filter set in the object, and every entry of that set
    is in lower case and begins with a dot. *)
Theorem extension_spellings_give_the_same_filter now_start now_end root
    start_date end_date include_time output_info_to sort_info
    (kind : list string -> extensions_arg) l1 l2 f1 f2 :
  kind = ExtCollection \/ kind = ExtIterator ->
  Forall2 same_extension l1 l2 ->
  __init__ now_start now_end root start_date end_date include_time
           output_info_to (kind l1) sort_info = Returned f1 ->
  __init__ now_start now_end root start_date end_date include_time
           output_info_to (kind l2) sort_info = Returned f2 ->
  _extensions f1 = _extensions f2
  /\ forall stored e,
       _extensions f1 = Some stored -> e ∈ stored ->
       lower e = e /\ no_upper e = true /\ startswith "." e = true.
Proof.
  intros Hk Hl H1 H2.
  apply init_fields in H1 as (E1 & _). apply init_fields in H2 as (E2 & _).
  assert (Hitems : forall l, ext_items (kind l) = l)
    by (destruct Hk as [-> | ->]; reflexivity).
  assert (Htruthy : ext_truthy (kind l1) = ext_truthy (kind l2)).
  { destruct Hk as [-> | ->]; [|reflexivity].
    destruct Hl; reflexivity. }
  rewrite !Hitems in *. split.
  - rewrite E1, E2, Htruthy, (ext_set_same l1 l2 Hl). reflexivity.
  - intros stored e Hs He. rewrite Hs in E1.
    destruct (ext_truthy (kind l1)); [|discriminate E1].
    injection E1 as ->.
    apply elem_of_ext_set in He as (s & Hin & ->).
    pose proof (same_extension_all_ascii l1 l2 Hl s Hin) as Ha.
    destruct (normalize_ext_ascii s Ha) as (_ & _ & Hn & Hlow).
    split; [exact Hlow|]. split; [exact Hn | apply normalize_ext_dotted].
Qed.

End Construction.

Section Reporting.
Context {L : PyLib}.

(** C5.  The sorter orders the records it is given by creation time, then
    modification time, then access time, then path: the sorted list is a
    rearrangement of the records in which every record is, in that order,
    at most every later one.  Each sorted report gets, after what it held,
    the entries of the records in the order of the sorted list: in the
    list report the four lines of each record and an empty line, with one
    more newline at the end; in the table report one line for each record,
    with a newline between two lines and none at the end (the field
    [mtime] holds item 2 of the record and [ctime] item 1, as the code
    writes them).  No other file is touched. *)
Theorem sorter_orders_by_ctime_mtime_atime_path list_file table_file
    files_list w :
  table_file <> list_file ->
  Permutation files_list (list_sort files_list)
  /\ StronglySorted record_le (list_sort files_list)
  /\ fst (_sorter list_file table_file files_list w) = Returned tt
  /\ w_files (snd (_sorter list_file table_file files_list w)) !! list_file
     = Some (default "" (w_files w !! list_file)
             +:+ match list_sort files_list with
                 | [] => nl +:+ nl
                 | _ =>
                   text_of (map (fun i =>
                                   "file: " +:+ item0 i +:+ nl
                                   +:+ "created: " +:+ time_ctime (item2 i) +:+ nl
                                   +:+ "modified: " +:+ time_ctime (item1 i) +:+ nl
                                   +:+ "accessed: " +:+ time_ctime (item3 i) +:+ nl
                                   +:+ nl) (list_sort files_list))
                   +:+ nl
                 end)
  /\ w_files (snd (_sorter list_file table_file files_list w)) !! table_file
     = Some (default "" (w_files w !! table_file)
             +:+ match list_sort files_list with
                 | [] => ""
                 | x :: rest =>
                   ("file=" +:+ item0 x +:+ "   |   "
                    +:+ "mtime=" +:+ time_ctime (item2 x) +:+ "   |   "
                    +:+ "ctime=" +:+ time_ctime (item1 x) +:+ "   |   "
                    +:+ "atime=" +:+ time_ctime (item3 x))
                   +:+ text_of (map (fun i =>
                                       nl +:+ "file=" +:+ item0 i +:+ "   |   "
                                       +:+ "mtime=" +:+ time_ctime (item2 i)
                                       +:+ "   |   "
                                       +:+ "ctime=" +:+ time_ctime (item1 i)
                                       +:+ "   |   "
                                       +:+ "atime=" +:+ time_ctime (item3 i))
                                    rest)
                 end)
  /\ forall q, q <> list_file -> q <> table_file ->
       w_files (snd (_sorter list_file table_file files_list w)) !! q
       = w_files w !! q.
Proof.
  intros Hne.
  destruct (sorter_files list_file table_file files_list w Hne)
    as (Hl & Ht & _ & _).
  split; [apply list_sort_perm|]. split; [apply list_sort_sorted|].
  split; [reflexivity|].
  split; [rewrite Hl; now rewrite list_block_text|].
  split; [rewrite Ht; now rewrite table_block_text|].
  intros q Hq1 Hq2.
  exact (sorter_outside list_file table_file files_list q Hq1 Hq2 w).
Qed.

(** C6.  Whatever a run does, and whether it returns or raises, every
    file that holds something when the run starts holds the same content
    at the end with, at most, more text after it.  In a run that returns,
    the primary report holds what it held before, then three newlines and
    the run header when it was there and the header alone when it was not,
    then what the run appended; the same holds for the two sorted reports
    when sorting is requested; no other file is touched. *)
Theorem reports_are_appended_never_overwritten self now_run walk w :
  (forall p old,
     w_files w !! p = Some old ->
     exists rest,
       w_files (snd (find_files self now_run walk w)) !! p = Some (old +:+ rest))
  /\ forall self' w',
       find_files self now_run walk w = (Returned self', w') ->
       exists out,
         _output_info_to self' = Some out
         /\ (exists rest,
               w_files w' !! path_join out "founded_table.txt"
               = Some (opened (w_files w !! path_join out "founded_table.txt")
                              (starting_text now_run self') +:+ rest))
         /\ (_sort_info self = true ->
             (exists rest,
                w_files w' !! path_join out "founded_list_sorted.txt"
                = Some (opened (w_files w !! path_join out "founded_list_sorted.txt")
                               (drop_last 67 (starting_text now_run self')
                                +:+ nl +:+ nl) +:+ rest))
             /\ (exists rest,
                   w_files w' !! path_join out "founded_table_sorted.txt"
                   = Some (opened (w_files w !! path_join out "founded_table_sorted.txt")
                                  (starting_text now_run self') +:+ rest)))
         /\ (forall q,
               q <> path_join out "founded_table.txt" ->
               (_sort_info self = false
                \/ (q <> path_join out "founded_list_sorted.txt"
                    /\ q <> path_join out "founded_table_sorted.txt")) ->
               w_files w' !! q = w_files w !! q).
Proof.
  split.
  - exact (find_files_keeps self now_run walk w).
  - intros self' w' H.
    apply find_files_returned in H as (root & out & -> & Ht & Hs & Hq).
    exists out. split; [reflexivity|]. auto.
Qed.

(** C10.  In an object that [__init__] has given a non-empty filter set,
    no entry of the set is the empty string (each begins with a dot), so
    the traversal skips a file whose [splitext] extension is empty: the
    count, the list and the world stay as they are.  The traversal and the
    whole run are the same as on the listings without such files, so none
    of them is in any report. *)
Theorem extensionless_files_never_match now_start now_end root start_date
    end_date include_time output_info_to extensions sort_info self stored :
  __init__ now_start now_end root start_date end_date include_time
           output_info_to extensions sort_info = Returned self ->
  _extensions self = Some stored ->
  stored <> ∅ ->
  (forall e, e ∈ stored -> e <> "" /\ startswith "." e = true)
  /\ (forall write_file start_date end_date dir acc file w,
        splitext_ext dir (f_name file) = "" ->
        visit_file self write_file start_date end_date dir acc file w
        = (Returned acc, w))
  /\ (forall walk write_file w,
        _walker self (without_extensionless walk) write_file w
        = _walker self walk write_file w)
  /\ (forall now_run walk w,
        find_files self now_run (without_extensionless walk) w
        = find_files self now_run walk w).
Proof.
  intros Hinit Hs Hne.
  apply init_fields in Hinit as (He & _). rewrite Hs in He.
  destruct (ext_truthy extensions); [|discriminate He].
  injection He as He.
  assert (Hentries : forall e, e ∈ stored -> e <> "" /\ startswith "." e = true).
  { intros e Hin. rewrite He in Hin. apply ext_set_entries in Hin. tauto. }
  assert (Hempty : "" ∉ stored).
  { intros Hin. now destruct (Hentries "" Hin). }
  split; [exact Hentries|]. split; [|split].
  - intros write_file sd ed dir acc file w Hext.
    rewrite (visit_file_filtered self write_file sd ed stored) by exact Hs.
    now rewrite file_match_extensionless.
  - intros walk write_file w.
    now apply (walker_without_extensionless self stored).
  - intros now_run walk w. apply find_files_same_walk.
    intros self'' write_file w0 Hsame.
    apply (walker_without_extensionless self'' stored); try assumption.
    now rewrite Hsame.
Qed.

End Reporting.

(** ** The properties at the sample inputs *)

(** C4, as the specification states it, fails: with the bounds omitted and
    [include_time] left at its default, the upper bound is the end of the
    day, not the clock reading. *)
Lemma default_upper_bound_is_not_now :
  exists self,
    @__init__ sample_lib sample_now sample_now (Some "/r") None None false
              None ExtNone false = Returned self
    /\ _end_date self = mk_datetime 738169 23 59 59 0
    /\ _end_date self <> sample_now.
Proof.
  eexists. split; [reflexivity|]. split; [reflexivity | discriminate].
Qed.

Lemma default_window_bounds_witness :
  @__init__ sample_lib sample_now sample_now (Some "/r") None None false
            None ExtNone false
  = Returned (mk_finder (Some "/r") None (mk_datetime 738162 0 0 0 0)
                        (mk_datetime 738169 23 59 59 0) false None)
  /\ mk_datetime 738162 0 0 0 0 = mk_datetime (ordinal sample_now - 7) 0 0 0 0
  /\ mk_datetime 738169 23 59 59 0
     = mk_datetime (ordinal sample_now) 23 59 59 (microsecond sample_now)
  /\ 0 < ordinal sample_now - 7 <= MAXORDINAL
  /\ exists self,
       @__init__ sample_lib sample_now sample_now (Some "/r") None None false
                 None ExtNone false = Returned self.
Proof.
  assert (Hcall : @__init__ sample_lib sample_now sample_now (Some "/r") None
                            None false None ExtNone false
                  = Returned (mk_finder (Some "/r") None
                                        (mk_datetime 738162 0 0 0 0)
                                        (mk_datetime 738169 23 59 59 0)
                                        false None)) by reflexivity.
  assert (Hclock : 0 < ordinal sample_now - 7 <= MAXORDINAL)
    by (vm_compute; split; [reflexivity | discriminate]).
  pose proof (@default_window_bounds sample_lib sample_now sample_now
                (Some "/r") None None false None ExtNone false) as [Hb Ht].
  destruct (Hb _ Hcall) as [Hs He].
  split; [exact Hcall|]. split; [exact (Hs eq_refl)|].
  split; [exact (He eq_refl)|]. split; [exact Hclock|].
  apply Ht; [exact Hclock | discriminate].
Defined.

(** C8, as the specification states it, fails: the empty string does not
    parse as a date, and a run given it as start date takes the default
    bound, raises nothing and writes the report. *)
Lemma empty_date_string_raises_nothing :
  @strptime sample_lib "" (date_format false) = None
  /\ exists self,
       fst (@run sample_lib sample_now sample_now sample_now (Some "/r")
                 (Some "") None false None (ExtCollection ["txt"]) false
                 sample_walk (empty_world "/home")) = Returned self
       /\ _start_date self = mk_datetime 738162 0 0 0 0
       /\ w_files (snd (@run sample_lib sample_now sample_now sample_now
                             (Some "/r") (Some "") None false None
                             (ExtCollection ["txt"]) false sample_walk
                             (empty_world "/home")))
          !! "/r/founded_table.txt" <> None.
Proof.
  split; [reflexivity|].
  eexists. split; [vm_compute; reflexivity|].
  split; [reflexivity|]. vm_compute. discriminate.
Qed.

Lemma unparseable_date_raises_before_any_report_witness :
  0 < ordinal sample_now - 7 <= MAXORDINAL
  /\ ((exists s, Some "yesterday" = Some s /\ s <> ""
                 /\ @strptime sample_lib s (date_format false) = None)
      \/ (exists s, @None string = Some s /\ s <> ""
                    /\ @strptime sample_lib s (date_format false) = None))
  /\ @__init__ sample_lib sample_now sample_now (Some "/r") (Some "yesterday")
               None false None (ExtCollection ["txt"]) true
     = Raised ValueError
  /\ @run sample_lib sample_now sample_now sample_now (Some "/r")
          (Some "yesterday") None false None (ExtCollection ["txt"]) true
          sample_walk sample_world
     = (Raised ValueError, sample_world).
Proof.
  assert (Hclock : 0 < ordinal sample_now - 7 <= MAXORDINAL)
    by (vm_compute; split; [reflexivity | discriminate]).
  assert (Hbad : (exists s, Some "yesterday" = Some s /\ s <> ""
                            /\ @strptime sample_lib s (date_format false) = None)
                 \/ (exists s, @None string = Some s /\ s <> ""
                               /\ @strptime sample_lib s (date_format false) = None)).
  { left. exists "yesterday".
    split; [reflexivity|]. split; [discriminate | reflexivity]. }
  split; [exact Hclock|]. split; [exact Hbad|].
  exact (@unparseable_date_raises_before_any_report sample_lib sample_now
           sample_now sample_now (Some "/r") (Some "yesterday") None false None
           (ExtCollection ["txt"]) true sample_walk sample_world Hclock Hbad).
Defined.

(** C9, as the specification states it, fails: a dot in front of an
    extension that begins with a dot gives another filter set. *)
Lemma second_dot_gives_another_filter :
  exists f1 f2,
    @__init__ sample_lib sample_now sample_now (Some "/r") None None false
              None (ExtCollection [".txt"]) false = Returned f1
    /\ @__init__ sample_lib sample_now sample_now (Some "/r") None None false
                 None (ExtCollection ["." +:+ ".txt"]) false = Returned f2
    /\ _extensions f1 = Some {[ ".txt" ]}
    /\ _extensions f2 = Some {[ "..txt" ]}
    /\ _extensions f1 <> _extensions f2.
Proof.
  eexists. eexists. split; [reflexivity|]. split; [reflexivity|].
  split; [vm_compute; reflexivity|]. split; [vm_compute; reflexivity|].
  vm_compute. discriminate.
Qed.

(** Outside ASCII the two cases of a letter need not give the same
    filter set: with a library that, as Python does, leaves the letter
    sharp s (bytes 195 159) as it is, that letter and its upper-case form
    [SS] are stored as two different entries. *)
Lemma sharp_s_and_its_upper_case_differ :
  let sharp_s := String (ascii_of_nat 195) (String (ascii_of_nat 159) "") in
  exists f1 f2,
    @__init__ sample_lib sample_now sample_now (Some "/r") None None false
              None (ExtCollection [sharp_s]) false = Returned f1
    /\ @__init__ sample_lib sample_now sample_now (Some "/r") None None false
                 None (ExtCollection ["SS"]) false = Returned f2
    /\ _extensions f1 = Some {[ "." +:+ sharp_s ]}
    /\ _extensions f2 = Some {[ ".ss" ]}
    /\ _extensions f1 <> _extensions f2.
Proof.
  eexists. eexists. split; [reflexivity|]. split; [reflexivity|].
  split; [vm_compute; reflexivity|]. split; [vm_compute; reflexivity|].
  vm_compute. discriminate.
Qed.

Lemma extension_spellings_give_the_same_filter_witness :
  (ExtCollection = ExtCollection \/ ExtCollection = ExtIterator)
  /\ Forall2 same_extension ["TXT"] [".txt"]
  /\ @__init__ sample_lib sample_now sample_now (Some "/r") None None false
               None (ExtCollection ["TXT"]) true = Returned sample_new_finder
  /\ @__init__ sample_lib sample_now sample_now (Some "/r") None None false
               None (ExtCollection [".txt"]) true = Returned sample_new_finder
  /\ _extensions sample_new_finder = _extensions sample_new_finder
  /\ forall stored e,
       _extensions sample_new_finder = Some stored -> e ∈ stored ->
       @lower sample_lib e = e /\ no_upper e = true
       /\ startswith "." e = true.
Proof.
  assert (Hk : ExtCollection = ExtCollection \/ ExtCollection = ExtIterator)
    by (left; reflexivity).
  assert (Hl : Forall2 same_extension ["TXT"] [".txt"]).
  { constructor; [|constructor].
    apply (same_trans "TXT" "txt" ".txt").
    - apply same_case; reflexivity.
    - apply (same_dotted "txt"); reflexivity. }
  assert (H1 : @__init__ sample_lib sample_now sample_now (Some "/r") None None
                         false None (ExtCollection ["TXT"]) true
               = Returned sample_new_finder) by (vm_compute; reflexivity).
  assert (H2 : @__init__ sample_lib sample_now sample_now (Some "/r") None None
                         false None (ExtCollection [".txt"]) true
               = Returned sample_new_finder) by (vm_compute; reflexivity).
  split; [exact Hk|]. split; [exact Hl|]. split; [exact H1|]. split; [exact H2|].
  exact (@extension_spellings_give_the_same_filter sample_lib sample_now
           sample_now (Some "/r") None None false None true ExtCollection
           ["TXT"] [".txt"] sample_new_finder sample_new_finder Hk Hl H1 H2).
Defined.

Lemma sorter_orders_by_ctime_mtime_atime_path_witness :
  "/r/founded_table_sorted.txt" <> "/r/founded_list_sorted.txt"
  /\ Permutation [sample_tuple_b; sample_tuple]
                 (list_sort [sample_tuple_b; sample_tuple])
  /\ StronglySorted record_le (list_sort [sample_tuple_b; sample_tuple])
  /\ fst (@_sorter sample_lib "/r/founded_list_sorted.txt"
                        "/r/founded_table_sorted.txt"
                        [sample_tuple_b; sample_tuple] (empty_world "/r")) = Returned tt
  /\ w_files (snd (@_sorter sample_lib "/r/founded_list_sorted.txt"
                        "/r/founded_table_sorted.txt"
                        [sample_tuple_b; sample_tuple] (empty_world "/r")))
     !! "/r/founded_list_sorted.txt"
     = Some (default "" (w_files (empty_world "/r")
                         !! "/r/founded_list_sorted.txt")
             +:+ match list_sort [sample_tuple_b; sample_tuple] with
                 | [] => nl +:+ nl
                 | _ =>
                   text_of (map (fun i =>
                     "file: " +:+ item0 i +:+ nl
                     +:+ "created: " +:+ @time_ctime sample_lib (item2 i) +:+ nl
                     +:+ "modified: " +:+ @time_ctime sample_lib (item1 i) +:+ nl
                     +:+ "accessed: " +:+ @time_ctime sample_lib (item3 i) +:+ nl
                     +:+ nl) (list_sort [sample_tuple_b; sample_tuple]))
                   +:+ nl
                 end)
  /\ w_files (snd (@_sorter sample_lib "/r/founded_list_sorted.txt"
                        "/r/founded_table_sorted.txt"
                        [sample_tuple_b; sample_tuple] (empty_world "/r")))
     !! "/r/founded_table_sorted.txt"
     = Some (default "" (w_files (empty_world "/r")
                         !! "/r/founded_table_sorted.txt")
             +:+ match list_sort [sample_tuple_b; sample_tuple] with
                 | [] => ""
                 | x :: rest =>
                   ("file=" +:+ item0 x +:+ "   |   "
                    +:+ "mtime=" +:+ @time_ctime sample_lib (item2 x)
                    +:+ "   |   "
                    +:+ "ctime=" +:+ @time_ctime sample_lib (item1 x)
                    +:+ "   |   "
                    +:+ "atime=" +:+ @time_ctime sample_lib (item3 x))
                   +:+ text_of (map (fun i =>
                         nl +:+ "file=" +:+ item0 i +:+ "   |   "
                         +:+ "mtime=" +:+ @time_ctime sample_lib (item2 i)
                         +:+ "   |   "
                         +:+ "ctime=" +:+ @time_ctime sample_lib (item1 i)
                         +:+ "   |   "
                         +:+ "atime=" +:+ @time_ctime sample_lib (item3 i))
                       rest)
                 end)
  /\ forall q, q <> "/r/founded_list_sorted.txt" ->
       q <> "/r/founded_table_sorted.txt" ->
       w_files (snd (@_sorter sample_lib "/r/founded_list_sorted.txt"
                        "/r/founded_table_sorted.txt"
                        [sample_tuple_b; sample_tuple] (empty_world "/r"))) !! q
       = w_files (empty_world "/r") !! q.
Proof.
  assert (Hne : "/r/founded_table_sorted.txt" <> "/r/founded_list_sorted.txt")
    by discriminate.
  split; [exact Hne|].
  exact (@sorter_orders_by_ctime_mtime_atime_path sample_lib
           "/r/founded_list_sorted.txt" "/r/founded_table_sorted.txt"
           [sample_tuple_b; sample_tuple] (empty_world "/r") Hne).
Defined.

Lemma reports_are_appended_never_overwritten_witness :
  w_files sample_world !! "/r/founded_table.txt" = Some ("earlier run" +:+ nl)
  /\ (exists rest,
        w_files (snd (@find_files sample_lib sample_new_finder sample_now
                                  sample_walk sample_world))
        !! "/r/founded_table.txt"
        = Some (("earlier run" +:+ nl) +:+ rest))
  /\ @find_files sample_lib sample_new_finder sample_now sample_walk sample_world
     = (Returned sample_finder,
        snd (@find_files sample_lib sample_new_finder sample_now sample_walk
                         sample_world))
  /\ exists out,
       _output_info_to sample_finder = Some out
       /\ (exists rest,
             w_files (snd (@find_files sample_lib sample_new_finder sample_now
                                       sample_walk sample_world))
             !! path_join out "founded_table.txt"
             = Some (opened (w_files sample_world !! path_join out "founded_table.txt")
                            (@starting_text sample_lib sample_now sample_finder)
                     +:+ rest))
       /\ (_sort_info sample_new_finder = true ->
           (exists rest,
              w_files (snd (@find_files sample_lib sample_new_finder sample_now
                                        sample_walk sample_world))
              !! path_join out "founded_list_sorted.txt"
              = Some (opened (w_files sample_world
                              !! path_join out "founded_list_sorted.txt")
                             (drop_last 67 (@starting_text sample_lib sample_now
                                                           sample_finder)
                              +:+ nl +:+ nl) +:+ rest))
           /\ (exists rest,
                 w_files (snd (@find_files sample_lib sample_new_finder sample_now
                                           sample_walk sample_world))
                 !! path_join out "founded_table_sorted.txt"
                 = Some (opened (w_files sample_world
                                 !! path_join out "founded_table_sorted.txt")
                                (@starting_text sample_lib sample_now sample_finder)
                         +:+ rest)))
       /\ (forall q,
             q <> path_join out "founded_table.txt" ->
             (_sort_info sample_new_finder = false
              \/ (q <> path_join out "founded_list_sorted.txt"
                  /\ q <> path_join out "founded_table_sorted.txt")) ->
             w_files (snd (@find_files sample_lib sample_new_finder sample_now
                                       sample_walk sample_world)) !! q
             = w_files sample_world !! q).
Proof.
  assert (H0 : w_files sample_world !! "/r/founded_table.txt"
               = Some ("earlier run" +:+ nl)) by (vm_compute; reflexivity).
  assert (Hrun : @find_files sample_lib sample_new_finder sample_now sample_walk
                             sample_world
                 = (Returned sample_finder,
                    snd (@find_files sample_lib sample_new_finder sample_now
                                     sample_walk sample_world)))
    by (vm_compute; reflexivity).
  pose proof (@reports_are_appended_never_overwritten sample_lib
                sample_new_finder sample_now sample_walk sample_world)
    as [Hkeep Hreports].
  split; [exact H0|]. split; [exact (Hkeep _ _ H0)|].
  split; [exact Hrun|]. exact (Hreports _ _ Hrun).
Defined.

Lemma extensionless_files_never_match_witness :
  @__init__ sample_lib sample_now sample_now (Some "/r") None None false
            None (ExtCollection ["txt"]) true = Returned sample_new_finder
  /\ _extensions sample_new_finder = Some (@ext_set sample_lib ["txt"])
  /\ @ext_set sample_lib ["txt"] <> ∅
  /\ (forall e, e ∈ @ext_set sample_lib ["txt"] -> e <> "" /\ startswith "." e = true)
  /\ (forall write_file start_date end_date dir acc file w,
        splitext_ext dir (f_name file) = "" ->
        @visit_file sample_lib sample_new_finder write_file start_date end_date
                    dir acc file w
        = (Returned acc, w))
  /\ (forall walk write_file w,
        @_walker sample_lib sample_new_finder (without_extensionless walk)
                 write_file w
        = @_walker sample_lib sample_new_finder walk write_file w)
  /\ (forall now_run walk w,
        @find_files sample_lib sample_new_finder now_run
                    (without_extensionless walk) w
        = @find_files sample_lib sample_new_finder now_run walk w).
Proof.
  assert (Hinit : @__init__ sample_lib sample_now sample_now (Some "/r") None
                            None false None (ExtCollection ["txt"]) true
                  = Returned sample_new_finder) by (vm_compute; reflexivity).
  assert (Hs : _extensions sample_new_finder = Some (@ext_set sample_lib ["txt"]))
    by reflexivity.
  assert (Hne : @ext_set sample_lib ["txt"] <> ∅) by (vm_compute; discriminate).
  split; [exact Hinit|]. split; [exact Hs|]. split; [exact Hne|].
  exact (@extensionless_files_never_match sample_lib sample_now sample_now
           (Some "/r") None None false None (ExtCollection ["txt"]) true
           sample_new_finder (@ext_set sample_lib ["txt"]) Hinit Hs Hne).
Defined.

(** The file [notes] of the sample directory has no extension and is in no
    report of the sample run, with or without it in the listing. *)
Example sample_run_skips_notes :
  splitext_ext "/r" "notes" = ""
  /\ fst (@_walker sample_lib sample_finder sample_walk "/r/founded_table.txt"
                   (empty_world "/r"))
     = Returned (1%nat, Some [sample_tuple]).
Proof. split; vm_compute; reflexivity. Qed.

(** * Further properties of the code *)

(** ** The traversal *)

Lemma bind_returns {A B} (m : M A) (k : A -> M B) w a w1 r :
  m w = (Returned a, w1) -> k a w1 = r -> bind m k w = r.
Proof. intros Hm Hk. unfold bind. now rewrite Hm. Qed.

Lemma bind_raises {A B} (m : M A) (k : A -> M B) w e w1 :
  m w = (Raised e, w1) -> bind m k w = (Raised e, w1).
Proof. intros Hm. unfold bind. now rewrite Hm. Qed.

Lemma existsb_filter_same {A} (f : A -> bool) l :
  existsb f (List.filter f l) = existsb f l.
Proof.
  induction l as [|x l IH]; [reflexivity|].
  cbn [List.filter existsb]. destruct (f x) eqn:Hx; cbn [existsb].
  - now rewrite Hx.
  - exact IH.
Qed.

Lemma some_file_there_without_vanished walk :
  some_file_there (without_vanished walk) = some_file_there walk.
Proof.
  unfold some_file_there, without_vanished.
  induction walk as [|d walk IH]; [reflexivity|].
  cbn [map existsb d_files]. now rewrite existsb_filter_same, IH.
Qed.

Lemma some_file_there_spec walk :
  some_file_there walk = true
  <-> exists d file, In d walk /\ In file (d_files d) /\ is_there file = true.
Proof.
  unfold some_file_there. rewrite existsb_exists. split.
  - intros (d & Hd & Hf). apply existsb_exists in Hf as (file & Hf & Ht). eauto.
  - intros (d & file & Hd & Hf & Ht). exists d. split; [exact Hd|].
    apply existsb_exists. eauto.
Qed.

Lemma some_file_there_app walk1 walk2 :
  some_file_there (walk1 ++ walk2)
  = some_file_there walk1 || some_file_there walk2.
Proof. apply existsb_app. Qed.

Section TraversalFacts.
Context {L : PyLib}.

Lemma file_match_vanished exts start_date end_date root file :
  is_there file = false ->
  file_match exts start_date end_date root file = None.
Proof.
  unfold is_there, file_match. now destruct (f_stat file).
Qed.

Lemma walk_matches_without_vanished exts start_date end_date walk :
  walk_matches exts start_date end_date (without_vanished walk)
  = walk_matches exts start_date end_date walk.
Proof.
  unfold walk_matches, without_vanished.
  induction walk as [|d walk IH]; [reflexivity|].
  cbn [map flat_map d_root d_files]. rewrite IH. f_equal.
  generalize (d_files d) as files.
  induction files as [|file files IHf]; [reflexivity|].
  cbn [List.filter]. destruct (is_there file) eqn:Ht; cbn [omap list_omap].
  - now rewrite IHf.
  - now rewrite (file_match_vanished _ _ _ _ _ Ht).
Qed.

Lemma walk_matches_app exts start_date end_date walk1 walk2 :
  walk_matches exts start_date end_date (walk1 ++ walk2)
  = (walk_matches exts start_date end_date walk1
     ++ walk_matches exts start_date end_date walk2)%list.
Proof. unfold walk_matches. apply flat_map_app. Qed.

(** X1.  A listed name whose file is gone when it is visited has no
    effect at all, with or without a filter set: the traversal does on the
    listings what it does on the listings without such names. *)
Theorem vanished_files_are_ignored self walk write_file w :
  _walker self (without_vanished walk) write_file w
  = _walker self walk write_file w.
Proof.
  destruct (_extensions self) as [exts|] eqn:He.
  - rewrite !(walker_filtered self exts) by exact He.
    now rewrite walk_matches_without_vanished.
  - rewrite !walker_unset by exact He.
    fold (some_file_there (without_vanished walk)).
    fold (some_file_there walk).
    now rewrite some_file_there_without_vanished.
Qed.

(** X2.  Traversing two runs of listings one after the other is
    traversing their concatenation: the counts add up, the lists follow
    each other, and the report is the one the second traversal leaves.  A
    traversal that raises on the first part raises on the whole. *)
Theorem walker_of_concatenated_listings self walk1 walk2 write_file w :
  (forall n1 l1 w1 n2 l2 w2,
     _walker self walk1 write_file w = (Returned (n1, l1), w1) ->
     _walker self walk2 write_file w1 = (Returned (n2, l2), w2) ->
     _walker self (walk1 ++ walk2) write_file w
     = (Returned ((n1 + n2)%nat, lists_app l1 l2), w2))
  /\ (forall e w1,
        _walker self walk1 write_file w = (Raised e, w1) ->
        _walker self (walk1 ++ walk2) write_file w = (Raised e, w1)).
Proof.
  destruct (_extensions self) as [exts|] eqn:He.
  - split.
    + intros n1 l1 w1 n2 l2 w2 H1 H2.
      rewrite (walker_filtered self exts) in H1, H2 |- * by exact He.
      injection H1 as <- <- <-. injection H2 as <- <- <-.
      rewrite walk_matches_app, length_app, map_app, append_lines_app.
      now destruct (_sort_info self).
    + intros e w1 H1.
      rewrite (walker_filtered self exts) in H1 by exact He. discriminate H1.
  - split.
    + intros n1 l1 w1 n2 l2 w2 H1 H2.
      rewrite walker_unset in H1, H2 |- * by exact He.
      fold (some_file_there walk1) in H1. fold (some_file_there walk2) in H2.
      fold (some_file_there (walk1 ++ walk2)).
      rewrite some_file_there_app.
      destruct (some_file_there walk1); [discriminate H1|].
      destruct (some_file_there walk2); [discriminate H2|].
      injection H1 as <- <- <-. injection H2 as <- <- <-.
      now destruct (_sort_info self).
    + intros e w1 H1.
      rewrite walker_unset in H1 |- * by exact He.
      fold (some_file_there walk1) in H1.
      fold (some_file_there (walk1 ++ walk2)).
      rewrite some_file_there_app.
      destruct (some_file_there walk1); [exact H1 | discriminate H1].
Qed.

End TraversalFacts.

Lemma omap_sublist_mono {A B} (f g : A -> option B) l :
  (forall x y, f x = Some y -> g x = Some y) ->
  sublist (omap f l) (omap g l).
Proof.
  intros Hfg. induction l as [|x l IH]; cbn [omap list_omap]; [constructor|].
  destruct (f x) as [y|] eqn:Hf.
  - rewrite (Hfg x y Hf). now constructor.
  - destruct (g x); [now constructor | exact IH].
Qed.

Section WindowFacts.
Context {L : PyLib}.

Lemma in_window_wider s e s' e' mtime ctime atime :
  s' <= s -> e <= e' ->
  in_window s e mtime ctime atime = true ->
  in_window s' e' mtime ctime atime = true.
Proof. rewrite !in_window_spec. lia. Qed.

Lemma in_window_empty s e mtime ctime atime :
  e <= s -> in_window s e mtime ctime atime = false.
Proof.
  intros H. apply not_true_is_false. rewrite in_window_spec. lia.
Qed.

Lemma walk_matches_wider exts s e s' e' walk :
  s' <= s -> e <= e' ->
  sublist (walk_matches exts s e walk) (walk_matches exts s' e' walk).
Proof.
  intros Hs He. unfold walk_matches.
  induction walk as [|d walk IH]; cbn [flat_map]; [constructor|].
  apply sublist_app; [|exact IH].
  apply omap_sublist_mono. intros file i. unfold file_match.
  destruct (f_stat file) as [st|]; [|discriminate].
  destruct (bool_decide (exts <> ∅) && _); [discriminate|].
  destruct (in_window s e _ _ _) eqn:Hw; [|discriminate].
  now rewrite (in_window_wider s e s' e' _ _ _ Hs He Hw).
Qed.

Lemma walk_matches_empty_window exts s e walk :
  e <= s -> walk_matches exts s e walk = [].
Proof.
  intros H. unfold walk_matches.
  induction walk as [|d walk IH]; [reflexivity|].
  cbn [flat_map]. rewrite IH, app_nil_r.
  induction (d_files d) as [|file files IHf]; [reflexivity|].
  cbn [omap list_omap]. rewrite IHf.
  unfold file_match. destruct (f_stat file) as [st|]; [|reflexivity].
  destruct (bool_decide (exts <> ∅) && _); [reflexivity|].
  now rewrite in_window_empty.
Qed.

(** X3.  A wider window reports at least what a narrower one reports.
    For two finders with the same filter set, the window of the first
    inside the window of the second, both traversals of the same listings
    return; each returns the number of the listed files that match in its
    window and appends their lines to the report, and the records of the
    first are, in their order, among the records of the second. *)
Theorem wider_window_reports_more self self' exts walk write_file w w0 :
  _extensions self = Some exts ->
  _extensions self' = Some exts ->
  timestamp (_start_date self') <= timestamp (_start_date self) ->
  timestamp (_end_date self) <= timestamp (_end_date self') ->
  let reported := walk_matches exts (timestamp (_start_date self))
                               (timestamp (_end_date self)) walk in
  let reported' := walk_matches exts (timestamp (_start_date self'))
                                (timestamp (_end_date self')) walk in
  _walker self walk write_file w
  = (Returned (length reported,
               if _sort_info self then Some reported else None),
     snd (_walker self walk write_file w))
  /\ w_files (snd (_walker self walk write_file w)) !! write_file
     = appended (w_files w !! write_file)
         (map (fun i =>
                 "file=" +:+ item0 i +:+ " | "
                 +:+ "mtime=" +:+ time_ctime (item1 i) +:+ " | "
                 +:+ "ctime=" +:+ time_ctime (item2 i) +:+ " | "
                 +:+ "atime=" +:+ time_ctime (item3 i) +:+ nl) reported)
  /\ _walker self' walk write_file w0
     = (Returned (length reported',
                  if _sort_info self' then Some reported' else None),
        snd (_walker self' walk write_file w0))
  /\ w_files (snd (_walker self' walk write_file w0)) !! write_file
     = appended (w_files w0 !! write_file)
         (map (fun i =>
                 "file=" +:+ item0 i +:+ " | "
                 +:+ "mtime=" +:+ time_ctime (item1 i) +:+ " | "
                 +:+ "ctime=" +:+ time_ctime (item2 i) +:+ " | "
                 +:+ "atime=" +:+ time_ctime (item3 i) +:+ nl) reported')
  /\ sublist reported reported'
  /\ (length reported <= length reported')%nat.
Proof.
  intros He He' Hs Hend reported reported'.
  rewrite (walker_filtered self exts), (walker_filtered self' exts) by assumption.
  cbn [snd]. fold reported reported'.
  split; [reflexivity|]. split; [apply append_lines_lookup|].
  split; [reflexivity|]. split; [apply append_lines_lookup|].
  pose proof (walk_matches_wider exts _ _ _ _ walk Hs Hend) as Hsub.
  split; [exact Hsub | now apply sublist_length].
Qed.

(** X4.  A window whose upper bound is not after its lower bound (a start
    date on or after the end date) is no error: the traversal returns
    count 0 and an empty list, and writes nothing. *)
Theorem empty_window_reports_nothing self exts walk write_file w :
  _extensions self = Some exts ->
  timestamp (_end_date self) <= timestamp (_start_date self) ->
  _walker self walk write_file w
  = (Returned (0%nat, if _sort_info self then Some [] else None), w).
Proof.
  intros He Hw. rewrite (walker_filtered self exts) by exact He.
  now rewrite walk_matches_empty_window.
Qed.

(** X5.  With a non-empty collection of extensions, every reported
    record is a file whose extension, in lower case, is the normal form
    (lower case, one dot in front when there was none) of one of the
    supplied strings: a file with any other extension is never reported,
    and the letter case of the file's extension does not matter. *)
Theorem reported_files_have_a_supplied_extension now_start now_end root
    start_date end_date include_time output_info_to extensions sort_info
    self walk write_file w :
  __init__ now_start now_end root start_date end_date include_time
           output_info_to extensions sort_info = Returned self ->
  ext_items extensions <> [] ->
  exists reported,
    _walker self walk write_file w
    = (Returned (length reported,
                 if _sort_info self then Some reported else None),
       append_lines write_file (map tuple_line reported) w)
    /\ forall i, In i reported ->
         exists ext, In ext (ext_items extensions)
                     /\ lower (snd (splitext (item0 i))) = normalize_ext ext.
Proof.
  intros Hinit Hitems. apply init_fields in Hinit as (He & _).
  assert (Htruthy : ext_truthy extensions = true).
  { destruct extensions as [|l|l]; cbn in *; try congruence.
    now rewrite bool_decide_eq_false_2. }
  rewrite Htruthy in He.
  assert (Hne : ext_set (ext_items extensions) <> ∅).
  { destruct (ext_items extensions) as [|s l] eqn:El; [congruence|].
    intros Hempty.
    assert (Hin : normalize_ext s ∈ ext_set (s :: l))
      by (apply elem_of_ext_set; exists s; split; [now left | reflexivity]).
    rewrite Hempty in Hin. now apply not_elem_of_empty in Hin. }
  exists (walk_matches (ext_set (ext_items extensions))
                       (timestamp (_start_date self))
                       (timestamp (_end_date self)) walk).
  split; [apply walker_filtered; exact He|].
  intros i Hi. apply walk_matches_In in Hi as (d & file & _ & _ & Hm).
  unfold file_match in Hm. destruct (f_stat file) as [st|]; [|discriminate Hm].
  cbn zeta in Hm.
  destruct (bool_decide (lower (snd (splitext (path_join (d_root d) (f_name file))))
                         ∈ ext_set (ext_items extensions))) eqn:Hin.
  - apply bool_decide_eq_true_1 in Hin.
    rewrite andb_false_r in Hm.
    destruct (in_window _ _ _ _ _); [|discriminate Hm].
    injection Hm as <-. cbn [item0].
    apply elem_of_ext_set in Hin as (ext & Hext & Heq). eauto.
  - rewrite bool_decide_eq_true_2 in Hm by exact Hne. discriminate Hm.
Qed.

End WindowFacts.

(** ** Extensions and dates of the object *)

Section StoredExtensions.
Context {L : PyLib}.

(** X6.  For extensions in ASCII characters, normalising is idempotent,
    so the entries of the stored filter set, supplied again as
    extensions, give the same set. *)
Theorem stored_extensions_are_normal l :
  (forall s, In s l -> is_ascii s = true) ->
  (forall s, In s l -> normalize_ext (normalize_ext s) = normalize_ext s)
  /\ ext_set (elements (ext_set l)) = ext_set l.
Proof.
  intros Hascii.
  split; [intros s Hs; apply normalize_ext_idem; now apply Hascii|].
  apply set_eq. intros e. rewrite !elem_of_ext_set. split.
  - intros (s & Hs & ->).
    apply list_elem_of_In, elem_of_elements, elem_of_ext_set in Hs
      as (t & Ht & ->).
    exists t. split; [exact Ht|]. apply normalize_ext_idem. now apply Hascii.
  - intros (t & Ht & ->). exists (normalize_ext t).
    split; [|symmetry; apply normalize_ext_idem; now apply Hascii].
    apply list_elem_of_In, elem_of_elements, elem_of_ext_set. eauto.
Qed.

End StoredExtensions.

Section DateFacts.
Context {L : PyLib}.

(** X7.  Without [include_time], whenever [__init__] returns, the upper
    bound is at 23:59:59 of its day, for a given end date as for an
    omitted one: a given end date keeps the day and the microsecond
    [strptime] read, and a given start date is used as read.  With
    [include_time] a given end date is used as read. *)
Theorem end_date_is_end_of_day now_start now_end root start_date end_date
    include_time output_info_to extensions sort_info self :
  __init__ now_start now_end root start_date end_date include_time
           output_info_to extensions sort_info = Returned self ->
  (include_time = false ->
   hour (_end_date self) = 23 /\ minute (_end_date self) = 59
   /\ second (_end_date self) = 59)
  /\ (forall s d, end_date = Some s -> s <> "" ->
        strptime s (date_format include_time) = Some d ->
        _end_date self
        = if include_time then d
          else mk_datetime (ordinal d) 23 59 59 (microsecond d))
  /\ (forall s d, start_date = Some s -> s <> "" ->
        strptime s (date_format include_time) = Some d ->
        _start_date self = d).
Proof.
  unfold __init__, sub_days. cbv zeta. intros H.
  assert (Htruthy : forall s, s <> "" -> str_truthy (Some s) = true).
  { intros s Hs. cbn. now destruct (String.eqb_spec s ""). }
  destruct (match (if str_truthy start_date then _ else _) with
            | Returned d => _ | Raised e => _ end) eqn:Hrun in H;
    [|discriminate H].
  injection H as <-.
  destruct (if str_truthy start_date then _ else _) as [start|] eqn:Hstart;
    [|discriminate Hrun].
  destruct (if str_truthy end_date then _ else _) as [end_|] eqn:Hend;
    [|discriminate Hrun].
  injection Hrun as <-. cbn [_end_date _start_date].
  split; [|split].
  - intros ->. cbn [negb]. repeat split; reflexivity.
  - intros s d -> Hs Hp. rewrite (Htruthy s Hs) in Hend.
    cbn [default] in Hend. change (id s) with s in Hend. rewrite Hp in Hend.
    injection Hend as <-. now destruct include_time.
  - intros s d -> Hs Hp. rewrite (Htruthy s Hs) in Hstart.
    cbn [default] in Hstart. change (id s) with s in Hstart.
    rewrite Hp in Hstart. now injection Hstart as <-.
Qed.

End DateFacts.

(** ** The sorter *)

Lemma record_le_antisym x y : record_le x y -> record_le y x -> x = y.
Proof.
  unfold record_le. destruct x as [p m c a], y as [p' m' c' a']. cbn.
  intros [H|(E2 & [H|(E1 & [H|(E3 & H)])])]
         [K|(F2 & [K|(F1 & [K|(F3 & K)])])]; try lia.
  subst. f_equal. now apply leb_antisym.
Qed.

Lemma sorted_permutation_unique l1 l2 :
  StronglySorted record_le l1 -> StronglySorted record_le l2 ->
  Permutation l1 l2 -> l1 = l2.
Proof.
  revert l2. induction l1 as [|x l1 IH]; intros l2 S1 S2 P.
  - now apply Permutation_nil in P.
  - destruct l2 as [|y l2].
    { apply Permutation_sym, Permutation_nil in P. discriminate P. }
    apply StronglySorted_inv in S1 as [S1 F1].
    apply StronglySorted_inv in S2 as [S2 F2].
    rewrite List.Forall_forall in F1, F2.
    assert (Hxy : x = y).
    { pose proof (Permutation_in x P (or_introl eq_refl)) as Hx.
      pose proof (Permutation_in y (Permutation_sym P) (or_introl eq_refl)) as Hy.
      destruct Hx as [->|Hx]; [reflexivity|].
      destruct Hy as [->|Hy]; [reflexivity|].
      apply record_le_antisym; [now apply F1 | now apply F2]. }
    subst y. f_equal. apply IH; try assumption.
    now apply Permutation_cons_inv in P.
Qed.

Section SorterFacts.
Context {L : PyLib}.

(** X8.  The sorted reports do not depend on the order in which the
    traversal found the files: two lists with the same records in any
    order are sorted into the same list and give the same two reports.
    Sorting a sorted list changes nothing. *)
Theorem sorted_reports_ignore_discovery_order list_file table_file l1 l2 w :
  Permutation l1 l2 ->
  list_sort l1 = list_sort l2
  /\ _sorter list_file table_file l1 w = _sorter list_file table_file l2 w
  /\ list_sort (list_sort l1) = list_sort l1.
Proof.
  intros P.
  assert (H : forall a b, Permutation a b -> list_sort a = list_sort b).
  { intros a b Pab.
    apply sorted_permutation_unique; try apply list_sort_sorted.
    rewrite <- (list_sort_perm a), <- (list_sort_perm b). exact Pab. }
  split; [now apply H|]. split.
  - unfold _sorter. now rewrite (H l1 l2 P).
  - apply H. symmetry. apply list_sort_perm.
Qed.

End SorterFacts.

(** ** The run header *)

Lemma string_length_append a b :
  String.length (a +:+ b) = (String.length a + String.length b)%nat.
Proof.
  induction a as [|x a IH]; [reflexivity|].
  rewrite append_cons. cbn [String.length]. now rewrite IH.
Qed.

Lemma substring_prefix a b : substring 0 (String.length a) (a +:+ b) = a.
Proof.
  induction a as [|x a IH].
  - cbn [String.length]. now destruct b.
  - rewrite append_cons. cbn [String.length substring]. now rewrite IH.
Qed.

Lemma drop_last_append a b : drop_last (String.length b) (a +:+ b) = a.
Proof.
  unfold drop_last. rewrite string_length_append.
  replace (String.length a + String.length b - String.length b)%nat
    with (String.length a) by lia.
  apply substring_prefix.
Qed.

Section HeaderFacts.
Context {L : PyLib}.

Lemma starting_text_split now_run self :
  starting_text now_run self = header_lines now_run self +:+ nl +:+ legend
  /\ drop_last 67 (starting_text now_run self) = header_lines now_run self.
Proof.
  assert (H : starting_text now_run self
              = header_lines now_run self +:+ nl +:+ legend).
  { unfold starting_text, header_lines. now rewrite !append_assoc. }
  split; [exact H|]. rewrite H.
  change 67%nat with (String.length (nl +:+ legend)).
  apply drop_last_append.
Qed.

(** X9.  The slice [starting_text[:-67]] takes off the column legend and
    the newline before it, no more and no less, whatever the dates print
    as: the run header is the three header lines, a newline and the
    legend, and the header of the sorted list report is the three header
    lines followed by two newlines. *)
Theorem list_header_is_header_without_legend now_run self :
  starting_text now_run self = header_lines now_run self +:+ nl +:+ legend
  /\ drop_last 67 (starting_text now_run self) = header_lines now_run self
  /\ drop_last 67 (starting_text now_run self) +:+ nl +:+ nl
     = header_lines now_run self +:+ nl +:+ nl.
Proof.
  destruct (starting_text_split now_run self) as [H D].
  split; [exact H|]. split; [exact D|]. now rewrite D.
Qed.

End HeaderFacts.

(** ** The whole run *)

Lemma start_report_eq p header w :
  start_report p header w = (Returned tt, snd (start_report p header w)).
Proof.
  destruct (start_report_returns p header w) as (H & _).
  destruct (start_report p header w) as [[[]|e] w']; [reflexivity | discriminate H].
Qed.

Lemma start_report_io p header w :
  w_cwd (snd (start_report p header w)) = w_cwd w
  /\ w_stdout (snd (start_report p header w)) = w_stdout w.
Proof.
  unfold start_report, bind, path_exists.
  destruct (bool_decide (is_Some (w_files w !! p))); split; reflexivity.
Qed.

Section SorterWorld.
Context {L : PyLib}.

(** The run, given what the traversal does on the opened primary
    report. *)
Lemma find_files_from_walker self now_run walk w reported :
  let self' := resolved self w in
  let out := resolved_output self w in
  let header := starting_text now_run self' in
  let w2 := snd (start_report (path_join out "founded_table.txt") header
                              (moved self w)) in
  let w3 := append_lines (path_join out "founded_table.txt")
                         (map tuple_line reported) w2 in
  let w4 :=
    if _sort_info self
    then snd (_sorter (path_join out "founded_list_sorted.txt")
                      (path_join out "founded_table_sorted.txt") reported
                (snd (start_report (path_join out "founded_table_sorted.txt") header
                   (snd (start_report (path_join out "founded_list_sorted.txt")
                           (drop_last 67 header +:+ nl +:+ nl) w3)))))
    else w3 in
  _walker self' walk (path_join out "founded_table.txt") w2
  = (Returned (length reported,
               if _sort_info self then Some reported else None), w3) ->
  find_files self now_run walk w
  = (Returned self',
     mk_world (w_cwd w4) (w_files w4)
              (w_stdout w4 ++ summary (length reported) out)%list).
Proof.
  intros self' out header w2 w3 w4 Hw. unfold find_files.
  eapply bind_returns
    with (w1 := w)
         (a := if str_truthy (_output_info_to self)
               then Some (normpath (path_join (w_cwd w)
                                      (default "" (_output_info_to self))))
               else _output_info_to self).
  { destruct (str_truthy (_output_info_to self)); reflexivity. }
  eapply bind_returns with (a := tt) (w1 := moved self w).
  { unfold moved. destruct (str_truthy (_root self)); reflexivity. }
  eapply bind_returns with (w1 := moved self w); [reflexivity|].
  eapply bind_returns with (w1 := moved self w); [reflexivity|].
  cbv zeta.
  eapply bind_returns; [apply start_report_eq|].
  eapply bind_returns; [exact Hw|].
  cbn [fst snd _sort_info]. clear Hw.
  subst w4 w3 w2 header out self'. unfold resolved, resolved_output.
  destruct (_sort_info self).
  - eapply bind_returns.
    { eapply bind_returns; [apply start_report_eq|].
      eapply bind_returns; [apply start_report_eq|].
      reflexivity. }
    unfold bind, print, ret, summary. cbn [w_cwd w_files w_stdout].
    now rewrite <- app_assoc.
  - unfold bind, print, ret, summary. cbn [w_cwd w_files w_stdout].
    now rewrite <- app_assoc.
Qed.

End SorterWorld.

Section RunResult.
Context {L : PyLib}.

Lemma moved_files self w :
  w_files (moved self w) = w_files w /\ w_stdout (moved self w) = w_stdout w.
Proof. unfold moved. destruct (str_truthy (_root self)); split; reflexivity. Qed.

(** What the reports, the output and the working directory are after the
    steps of a run that follow the change of directory. *)
Lemma run_world_facts self now_run w reported :
  let out := resolved_output self w in
  let header := starting_text now_run self in
  let wt := path_join out "founded_table.txt" in
  let wl := path_join out "founded_list_sorted.txt" in
  let ws := path_join out "founded_table_sorted.txt" in
  let w3 := append_lines wt (map tuple_line reported)
                         (snd (start_report wt header (moved self w))) in
  let w4 :=
    if _sort_info self
    then snd (_sorter wl ws reported
                (snd (start_report ws header
                   (snd (start_report wl (drop_last 67 header +:+ nl +:+ nl) w3)))))
    else w3 in
  w_files w4 !! wt
  = Some (opened (w_files w !! wt) header +:+ text_of (map tuple_line reported))
  /\ w_stdout w4 = w_stdout w
  /\ w_cwd w4 = w_cwd (moved self w)
  /\ (_sort_info self = true ->
      w_files w4 !! wl
      = Some (opened (w_files w !! wl) (drop_last 67 header +:+ nl +:+ nl)
              +:+ join nl (map info (list_sort reported)) +:+ nl +:+ nl)
      /\ w_files w4 !! ws
         = Some (opened (w_files w !! ws) header
                 +:+ join nl (map info_table (list_sort reported)))
      /\ forall q, q <> wt -> q <> wl -> q <> ws ->
           w_files w4 !! q = w_files w !! q)
  /\ (_sort_info self = false ->
      forall q, q <> wt -> w_files w4 !! q = w_files w !! q).
Proof.
  intros out header wt wl ws w3 w4.
  destruct (report_paths_distinct out) as (Dlt & Dst & Dsl).
  fold wt wl ws in Dlt, Dst, Dsl.
  destruct (moved_files self w) as [Fm Om].
  set (w2 := snd (start_report wt header (moved self w))) in *.
  destruct (start_report_returns wt header (moved self w)) as (_ & T2 & O2).
  destruct (start_report_io wt header (moved self w)) as [C2 S2].
  fold w2 in T2, O2, C2, S2. rewrite Fm in T2.
  destruct (append_lines_files wt (map tuple_line reported) w2)
    as (C3 & S3 & O3 & T3).
  fold w3 in C3, S3, O3, T3. specialize (T3 _ T2).
  assert (U3 : forall q, q <> wt -> w_files w3 !! q = w_files w !! q).
  { intros q Hq. rewrite (O3 q Hq), (O2 q Hq). now rewrite Fm. }
  subst w4. destruct (_sort_info self).
  - set (wa := snd (start_report wl (drop_last 67 header +:+ nl +:+ nl) w3)).
    set (wb := snd (start_report ws header wa)).
    destruct (start_report_returns wl (drop_last 67 header +:+ nl +:+ nl) w3)
      as (_ & Ta & Oa).
    destruct (start_report_io wl (drop_last 67 header +:+ nl +:+ nl) w3)
      as [Ca Sa].
    fold wa in Ta, Oa, Ca, Sa.
    destruct (start_report_returns ws header wa) as (_ & Tb & Ob).
    destruct (start_report_io ws header wa) as [Cb Sb].
    fold wb in Tb, Ob, Cb, Sb.
    destruct (sorter_files wl ws reported wb Dsl) as (Tl & Ts & Cc & Sc).
    unfold untouched in Oa, Ob.
    split; [|split; [|split; [|split]]].
    + pose proof (sorter_outside wl ws reported wt (not_eq_sym Dlt)
                                 (not_eq_sym Dst) wb) as U.
      unfold untouched in U. rewrite U.
      rewrite (Ob wt (not_eq_sym Dst)), (Oa wt (not_eq_sym Dlt)). exact T3.
    + now rewrite Sc, Sb, Sa, S3, S2.
    + now rewrite Cc, Cb, Ca, C3, C2.
    + intros _. split; [|split].
      * rewrite Tl, (Ob wl (not_eq_sym Dsl)), Ta, (U3 wl Dlt). reflexivity.
      * rewrite Ts, Tb, (Oa ws Dsl), (U3 ws Dst). reflexivity.
      * intros q Ht Hl Hs.
        pose proof (sorter_outside wl ws reported q Hl Hs wb) as U.
        unfold untouched in U.
        rewrite U, (Ob q Hs), (Oa q Hl). now apply U3.
    + discriminate.
  - split; [exact T3|]. split; [now rewrite S3, S2|].
    split; [now rewrite C3, C2|]. split; [discriminate|].
    intros _. exact U3.
Qed.

(** X10.  Whenever a run with a filter set assigned returns, the primary
    report of its output folder holds what it held before, the run header
    (after three newlines when the file was there) and the line of each
    listed file that matches, in the order of the listings; and the run
    has printed two lines and no more: the number of these files and the
    output folder. *)
Theorem run_with_filter_writes_primary_report self exts now_run walk w
    self' w' :
  _extensions self = Some exts ->
  find_files self now_run walk w = (Returned self', w') ->
  let reported := walk_matches exts (timestamp (_start_date self))
                               (timestamp (_end_date self)) walk in
  exists out,
    _output_info_to self' = Some out
    /\ w_files w' !! path_join out "founded_table.txt"
       = Some (opened (w_files w !! path_join out "founded_table.txt")
                      (starting_text now_run self)
               +:+ text_of (map (fun i =>
                 "file=" +:+ item0 i +:+ " | "
                 +:+ "mtime=" +:+ time_ctime (item1 i) +:+ " | "
                 +:+ "ctime=" +:+ time_ctime (item2 i) +:+ " | "
                 +:+ "atime=" +:+ time_ctime (item3 i) +:+ nl) reported))
    /\ w_stdout w'
       = (w_stdout w
          ++ ["Files founded: " +:+ pretty (length reported);
              "Output info to: " +:+ out +:+ " folder"])%list.
Proof.
  intros He Hret reported.
  pose proof (find_files_from_walker self now_run walk w reported) as Hrun.
  cbv zeta in Hrun.
  specialize (Hrun (walker_filtered (resolved self w) exts walk _ _ He)).
  rewrite Hrun in Hret. injection Hret as <- <-.
  destruct (run_world_facts self now_run w reported) as (Ht & Hs & _).
  exists (resolved_output self w). split; [reflexivity|].
  cbn [w_files w_stdout]. split; [exact Ht|].
  exact (f_equal (fun s => (s ++ summary (length reported)
                                         (resolved_output self w))%list) Hs).
Qed.

(** X11.  Whenever a run with a filter set assigned and sorting requested
    returns, the three reports of its output folder hold what they held
    before, their header, and the same records: the primary report the
    line of each listed file that matches, in the order of the listings;
    the sorted list report and the sorted table report the entries of
    these records, each once, ordered by creation time, modification
    time, access time, path. *)
Theorem run_with_filter_writes_sorted_reports self exts now_run walk w
    self' w' :
  _extensions self = Some exts ->
  _sort_info self = true ->
  find_files self now_run walk w = (Returned self', w') ->
  let reported := walk_matches exts (timestamp (_start_date self))
                               (timestamp (_end_date self)) walk in
  let sorted := list_sort reported in
  Permutation reported sorted
  /\ StronglySorted record_le sorted
  /\ exists out,
       _output_info_to self' = Some out
       /\ w_files w' !! path_join out "founded_table.txt"
          = Some (opened (w_files w !! path_join out "founded_table.txt")
                         (starting_text now_run self)
                  +:+ text_of (map (fun i =>
                 "file=" +:+ item0 i +:+ " | "
                 +:+ "mtime=" +:+ time_ctime (item1 i) +:+ " | "
                 +:+ "ctime=" +:+ time_ctime (item2 i) +:+ " | "
                 +:+ "atime=" +:+ time_ctime (item3 i) +:+ nl) reported))
       /\ w_files w' !! path_join out "founded_list_sorted.txt"
          = Some (opened (w_files w !! path_join out "founded_list_sorted.txt")
                         (header_lines now_run self +:+ nl +:+ nl)
                  +:+ match sorted with
                      | [] => nl +:+ nl
                      | _ =>
                        text_of (map (fun i =>
                                   "file: " +:+ item0 i +:+ nl
                                   +:+ "created: " +:+ time_ctime (item2 i) +:+ nl
                                   +:+ "modified: " +:+ time_ctime (item1 i) +:+ nl
                                   +:+ "accessed: " +:+ time_ctime (item3 i) +:+ nl
                                   +:+ nl) sorted)
                        +:+ nl
                      end)
       /\ w_files w' !! path_join out "founded_table_sorted.txt"
          = Some (opened (w_files w !! path_join out "founded_table_sorted.txt")
                         (starting_text now_run self)
                  +:+ match sorted with
                      | [] => ""
                      | x :: rest =>
                        ("file=" +:+ item0 x +:+ "   |   "
                         +:+ "mtime=" +:+ time_ctime (item2 x) +:+ "   |   "
                         +:+ "ctime=" +:+ time_ctime (item1 x) +:+ "   |   "
                         +:+ "atime=" +:+ time_ctime (item3 x))
                        +:+ text_of (map (fun i =>
                                       nl +:+ "file=" +:+ item0 i +:+ "   |   "
                                       +:+ "mtime=" +:+ time_ctime (item2 i)
                                       +:+ "   |   "
                                       +:+ "ctime=" +:+ time_ctime (item1 i)
                                       +:+ "   |   "
                                       +:+ "atime=" +:+ time_ctime (item3 i))
                                    rest)
                      end).
Proof.
  intros He Hsort Hret reported sorted.
  pose proof (find_files_from_walker self now_run walk w reported) as Hrun.
  cbv zeta in Hrun.
  specialize (Hrun (walker_filtered (resolved self w) exts walk _ _ He)).
  rewrite Hrun in Hret. injection Hret as <- <-.
  destruct (run_world_facts self now_run w reported) as (Ht & _ & _ & Hs & _).
  destruct (Hs Hsort) as (Hl & Hts & _).
  destruct (starting_text_split now_run self) as [_ Hh].
  split; [apply list_sort_perm|]. split; [apply list_sort_sorted|].
  exists (resolved_output self w). split; [reflexivity|].
  cbn [w_files]. split; [exact Ht|]. split.
  - etransitivity; [exact Hl|]. rewrite Hh. now rewrite list_block_text.
  - etransitivity; [exact Hts|]. now rewrite table_block_text.
Qed.

(** X12.  When the object has no filter set and a listed file is still
    there, the run raises [AttributeError] at that file: the header is
    already in the primary report, with what the report held before and
    nothing after it; no other file is changed and nothing is printed. *)
Theorem run_without_filter_stops_after_header self now_run walk w :
  _extensions self = None ->
  (exists d file, In d walk /\ In file (d_files d) /\ is_there file = true) ->
  fst (find_files self now_run walk w) = Raised AttributeError
  /\ w_files (snd (find_files self now_run walk w))
     !! path_join (resolved_output self w) "founded_table.txt"
     = Some (opened (w_files w
                     !! path_join (resolved_output self w) "founded_table.txt")
                    (starting_text now_run self))
  /\ (forall q,
        q <> path_join (resolved_output self w) "founded_table.txt" ->
        w_files (snd (find_files self now_run walk w)) !! q = w_files w !! q)
  /\ w_stdout (snd (find_files self now_run walk w)) = w_stdout w.
Proof.
  intros He Hthere. apply some_file_there_spec in Hthere.
  set (wt := path_join (resolved_output self w) "founded_table.txt").
  set (w2 := snd (start_report wt (starting_text now_run self) (moved self w))).
  assert (Hrun : find_files self now_run walk w = (Raised AttributeError, w2)).
  { unfold find_files.
    eapply bind_returns
      with (w1 := w)
           (a := if str_truthy (_output_info_to self)
                 then Some (normpath (path_join (w_cwd w)
                                        (default "" (_output_info_to self))))
                 else _output_info_to self).
    { destruct (str_truthy (_output_info_to self)); reflexivity. }
    eapply bind_returns with (a := tt) (w1 := moved self w).
    { unfold moved. destruct (str_truthy (_root self)); reflexivity. }
    eapply bind_returns with (w1 := moved self w); [reflexivity|].
    eapply bind_returns with (w1 := moved self w); [reflexivity|].
    cbv zeta.
    eapply bind_returns; [apply start_report_eq|].
    apply bind_raises.
    rewrite walker_unset by exact He.
    fold (some_file_there walk). now rewrite Hthere. }
  rewrite Hrun. cbn [fst snd].
  destruct (start_report_returns wt (starting_text now_run self)
                                 (moved self w)) as (_ & T2 & O2).
  destruct (start_report_io wt (starting_text now_run self) (moved self w))
    as [_ S2].
  destruct (moved_files self w) as [Fm Om].
  fold w2 in T2, O2, S2. rewrite Fm in T2.
  split; [reflexivity|]. split; [exact T2|]. split; [|now rewrite S2].
  intros q Hq. rewrite (O2 q Hq). now rewrite Fm.
Qed.

End RunResult.

(** ** The further properties at the sample inputs *)

Lemma walker_of_concatenated_listings_witness :
  @_walker sample_lib sample_finder sample_walk "/r/founded_table.txt"
           (empty_world "/r")
  = (Returned (1%nat, Some [sample_tuple]),
     snd (@_walker sample_lib sample_finder sample_walk "/r/founded_table.txt"
                   (empty_world "/r")))
  /\ @_walker sample_lib sample_finder sample_walk "/r/founded_table.txt"
              (snd (@_walker sample_lib sample_finder sample_walk
                             "/r/founded_table.txt" (empty_world "/r")))
     = (Returned (1%nat, Some [sample_tuple]),
        snd (@_walker sample_lib sample_finder (sample_walk ++ sample_walk)
                      "/r/founded_table.txt" (empty_world "/r")))
  /\ @_walker sample_lib sample_finder (sample_walk ++ sample_walk)
              "/r/founded_table.txt" (empty_world "/r")
     = (Returned ((1 + 1)%nat, lists_app (Some [sample_tuple]) (Some [sample_tuple])),
        snd (@_walker sample_lib sample_finder (sample_walk ++ sample_walk)
                      "/r/founded_table.txt" (empty_world "/r")))
  /\ @_walker sample_lib sample_bare_finder sample_walk "/r/founded_table.txt"
              (empty_world "/r")
     = (Raised AttributeError, empty_world "/r")
  /\ @_walker sample_lib sample_bare_finder (sample_walk ++ sample_walk)
              "/r/founded_table.txt" (empty_world "/r")
     = (Raised AttributeError, empty_world "/r").
Proof.
  assert (H1 : @_walker sample_lib sample_finder sample_walk
                        "/r/founded_table.txt" (empty_world "/r")
               = (Returned (1%nat, Some [sample_tuple]),
                  snd (@_walker sample_lib sample_finder sample_walk
                                "/r/founded_table.txt" (empty_world "/r"))))
    by (vm_compute; reflexivity).
  assert (H2 : @_walker sample_lib sample_finder sample_walk
                        "/r/founded_table.txt"
                        (snd (@_walker sample_lib sample_finder sample_walk
                                       "/r/founded_table.txt" (empty_world "/r")))
               = (Returned (1%nat, Some [sample_tuple]),
                  snd (@_walker sample_lib sample_finder
                                (sample_walk ++ sample_walk)
                                "/r/founded_table.txt" (empty_world "/r"))))
    by (vm_compute; reflexivity).
  assert (H3 : @_walker sample_lib sample_bare_finder sample_walk
                        "/r/founded_table.txt" (empty_world "/r")
               = (Raised AttributeError, empty_world "/r"))
    by (vm_compute; reflexivity).
  split; [exact H1|]. split; [exact H2|]. split; [|split; [exact H3|]].
  - exact (proj1 (@walker_of_concatenated_listings sample_lib sample_finder
                    sample_walk sample_walk "/r/founded_table.txt"
                    (empty_world "/r")) _ _ _ _ _ _ H1 H2).
  - exact (proj2 (@walker_of_concatenated_listings sample_lib sample_bare_finder
                    sample_walk sample_walk "/r/founded_table.txt"
                    (empty_world "/r")) _ _ H3).
Defined.

Lemma wider_window_reports_more_witness :
  _extensions sample_finder = Some (@ext_set sample_lib ["txt"])
  /\ _extensions sample_wide_finder = Some (@ext_set sample_lib ["txt"])
  /\ @timestamp sample_lib (_start_date sample_wide_finder)
     <= @timestamp sample_lib (_start_date sample_finder)
  /\ @timestamp sample_lib (_end_date sample_finder)
     <= @timestamp sample_lib (_end_date sample_wide_finder)
  /\ let reported :=
       @walk_matches sample_lib (@ext_set sample_lib ["txt"])
         (@timestamp sample_lib (_start_date sample_finder))
         (@timestamp sample_lib (_end_date sample_finder)) sample_walk in
     let reported' :=
       @walk_matches sample_lib (@ext_set sample_lib ["txt"])
         (@timestamp sample_lib (_start_date sample_wide_finder))
         (@timestamp sample_lib (_end_date sample_wide_finder)) sample_walk in
     @_walker sample_lib sample_finder sample_walk "/r/founded_table.txt"
              (empty_world "/r")
     = (Returned (length reported,
                  if _sort_info sample_finder then Some reported else None),
        snd (@_walker sample_lib sample_finder sample_walk
                      "/r/founded_table.txt" (empty_world "/r")))
     /\ w_files (snd (@_walker sample_lib sample_finder sample_walk
                               "/r/founded_table.txt" (empty_world "/r")))
        !! "/r/founded_table.txt"
        = appended (w_files (empty_world "/r") !! "/r/founded_table.txt")
            (map (fun i =>
                    "file=" +:+ item0 i +:+ " | "
                    +:+ "mtime=" +:+ @time_ctime sample_lib (item1 i) +:+ " | "
                    +:+ "ctime=" +:+ @time_ctime sample_lib (item2 i) +:+ " | "
                    +:+ "atime=" +:+ @time_ctime sample_lib (item3 i) +:+ nl) reported)
     /\ @_walker sample_lib sample_wide_finder sample_walk
                 "/r/founded_table.txt" (empty_world "/r")
        = (Returned (length reported',
                     if _sort_info sample_wide_finder
                     then Some reported' else None),
           snd (@_walker sample_lib sample_wide_finder sample_walk
                         "/r/founded_table.txt" (empty_world "/r")))
     /\ w_files (snd (@_walker sample_lib sample_wide_finder sample_walk
                               "/r/founded_table.txt" (empty_world "/r")))
        !! "/r/founded_table.txt"
        = appended (w_files (empty_world "/r") !! "/r/founded_table.txt")
            (map (fun i =>
                    "file=" +:+ item0 i +:+ " | "
                    +:+ "mtime=" +:+ @time_ctime sample_lib (item1 i) +:+ " | "
                    +:+ "ctime=" +:+ @time_ctime sample_lib (item2 i) +:+ " | "
                    +:+ "atime=" +:+ @time_ctime sample_lib (item3 i) +:+ nl) reported')
     /\ sublist reported reported'
     /\ (length reported <= length reported')%nat.
Proof.
  assert (Hs : @timestamp sample_lib (_start_date sample_wide_finder)
               <= @timestamp sample_lib (_start_date sample_finder))
    by (vm_compute; discriminate).
  assert (He : @timestamp sample_lib (_end_date sample_finder)
               <= @timestamp sample_lib (_end_date sample_wide_finder))
    by (vm_compute; discriminate).
  split; [reflexivity|]. split; [reflexivity|]. split; [exact Hs|].
  split; [exact He|].
  exact (@wider_window_reports_more sample_lib sample_finder sample_wide_finder
           (@ext_set sample_lib ["txt"]) sample_walk "/r/founded_table.txt"
           (empty_world "/r") (empty_world "/r") eq_refl eq_refl Hs He).
Defined.

Lemma empty_window_reports_nothing_witness :
  _extensions sample_inverted_finder = Some (@ext_set sample_lib ["txt"])
  /\ @timestamp sample_lib (_end_date sample_inverted_finder)
     <= @timestamp sample_lib (_start_date sample_inverted_finder)
  /\ @_walker sample_lib sample_inverted_finder sample_walk
              "/r/founded_table.txt" (empty_world "/r")
     = (Returned (0%nat, if _sort_info sample_inverted_finder
                         then Some [] else None),
        empty_world "/r").
Proof.
  assert (Hw : @timestamp sample_lib (_end_date sample_inverted_finder)
               <= @timestamp sample_lib (_start_date sample_inverted_finder))
    by (vm_compute; discriminate).
  split; [reflexivity|]. split; [exact Hw|].
  exact (@empty_window_reports_nothing sample_lib sample_inverted_finder
           (@ext_set sample_lib ["txt"]) sample_walk "/r/founded_table.txt"
           (empty_world "/r") eq_refl Hw).
Defined.

Lemma reported_files_have_a_supplied_extension_witness :
  @__init__ sample_lib sample_now sample_now (Some "/r") None None false
            None (ExtCollection ["txt"]) true = Returned sample_new_finder
  /\ ext_items (ExtCollection ["txt"]) <> []
  /\ exists reported,
       @_walker sample_lib sample_new_finder sample_walk "/r/founded_table.txt"
                (empty_world "/r")
       = (Returned (length reported,
                    if _sort_info sample_new_finder then Some reported else None),
          append_lines "/r/founded_table.txt"
                       (map (@tuple_line sample_lib) reported) (empty_world "/r"))
       /\ forall i, In i reported ->
            exists ext, In ext (ext_items (ExtCollection ["txt"]))
                        /\ @lower sample_lib (snd (splitext (item0 i)))
                           = @normalize_ext sample_lib ext.
Proof.
  assert (Hinit : @__init__ sample_lib sample_now sample_now (Some "/r") None
                            None false None (ExtCollection ["txt"]) true
                  = Returned sample_new_finder) by (vm_compute; reflexivity).
  assert (Hne : ext_items (ExtCollection ["txt"]) <> []) by discriminate.
  split; [exact Hinit|]. split; [exact Hne|].
  exact (@reported_files_have_a_supplied_extension sample_lib sample_now
           sample_now (Some "/r") None None false None (ExtCollection ["txt"])
           true sample_new_finder sample_walk "/r/founded_table.txt"
           (empty_world "/r") Hinit Hne).
Defined.

Lemma stored_extensions_are_normal_witness :
  (forall s, In s ["TXT"; ".Md"] -> is_ascii s = true)
  /\ (forall s, In s ["TXT"; ".Md"] ->
        @normalize_ext sample_lib (@normalize_ext sample_lib s)
        = @normalize_ext sample_lib s)
  /\ @ext_set sample_lib (elements (@ext_set sample_lib ["TXT"; ".Md"]))
     = @ext_set sample_lib ["TXT"; ".Md"].
Proof.
  assert (Hascii : forall s, In s ["TXT"; ".Md"] -> is_ascii s = true).
  { intros s [<-|[<-|[]]]; reflexivity. }
  split; [exact Hascii|].
  exact (@stored_extensions_are_normal sample_lib ["TXT"; ".Md"] Hascii).
Defined.

Lemma end_date_is_end_of_day_witness :
  @__init__ sample_lib sample_now sample_now (Some "/r") (Some "2022-01-07")
            (Some "2022-01-14") false None (ExtCollection ["txt"]) true
  = Returned sample_new_finder
  /\ hour (_end_date sample_new_finder) = 23
  /\ minute (_end_date sample_new_finder) = 59
  /\ second (_end_date sample_new_finder) = 59
  /\ @strptime sample_lib "2022-01-14" (date_format false)
     = Some (mk_datetime 738169 0 0 0 0)
  /\ _end_date sample_new_finder = mk_datetime 738169 23 59 59 0
  /\ @strptime sample_lib "2022-01-07" (date_format false)
     = Some (mk_datetime 738162 0 0 0 0)
  /\ _start_date sample_new_finder = mk_datetime 738162 0 0 0 0.
Proof.
  assert (Hinit : @__init__ sample_lib sample_now sample_now (Some "/r")
                            (Some "2022-01-07") (Some "2022-01-14") false None
                            (ExtCollection ["txt"]) true
                  = Returned sample_new_finder) by (vm_compute; reflexivity).
  assert (Hend : @strptime sample_lib "2022-01-14" (date_format false)
                 = Some (mk_datetime 738169 0 0 0 0)) by (vm_compute; reflexivity).
  assert (Hstart : @strptime sample_lib "2022-01-07" (date_format false)
                   = Some (mk_datetime 738162 0 0 0 0))
    by (vm_compute; reflexivity).
  assert (Hne1 : "2022-01-14" <> "") by discriminate.
  assert (Hne2 : "2022-01-07" <> "") by discriminate.
  pose proof (@end_date_is_end_of_day sample_lib sample_now sample_now
                (Some "/r") (Some "2022-01-07") (Some "2022-01-14") false None
                (ExtCollection ["txt"]) true sample_new_finder Hinit)
    as (Hday & Hgiven & Hgiven').
  destruct (Hday eq_refl) as (Hh & Hm & Hs).
  split; [exact Hinit|]. split; [exact Hh|]. split; [exact Hm|].
  split; [exact Hs|]. split; [exact Hend|].
  split; [exact (Hgiven _ _ eq_refl Hne1 Hend)|]. split; [exact Hstart|].
  exact (Hgiven' _ _ eq_refl Hne2 Hstart).
Defined.

Lemma sorted_reports_ignore_discovery_order_witness :
  Permutation [sample_tuple_b; sample_tuple] [sample_tuple; sample_tuple_b]
  /\ list_sort [sample_tuple_b; sample_tuple]
     = list_sort [sample_tuple; sample_tuple_b]
  /\ @_sorter sample_lib "/r/founded_list_sorted.txt"
              "/r/founded_table_sorted.txt" [sample_tuple_b; sample_tuple]
              (empty_world "/r")
     = @_sorter sample_lib "/r/founded_list_sorted.txt"
                "/r/founded_table_sorted.txt" [sample_tuple; sample_tuple_b]
                (empty_world "/r")
  /\ list_sort (list_sort [sample_tuple_b; sample_tuple])
     = list_sort [sample_tuple_b; sample_tuple].
Proof.
  assert (P : Permutation [sample_tuple_b; sample_tuple]
                          [sample_tuple; sample_tuple_b]) by apply perm_swap.
  split; [exact P|].
  exact (@sorted_reports_ignore_discovery_order sample_lib
           "/r/founded_list_sorted.txt" "/r/founded_table_sorted.txt"
           [sample_tuple_b; sample_tuple] [sample_tuple; sample_tuple_b]
           (empty_world "/r") P).
Defined.

Lemma run_with_filter_writes_primary_report_witness :
  _extensions sample_new_finder = Some (@ext_set sample_lib ["txt"])
  /\ @find_files sample_lib sample_new_finder sample_now sample_walk sample_world
     = (Returned (@resolved sample_lib sample_new_finder sample_world),
        snd (@find_files sample_lib sample_new_finder sample_now sample_walk sample_world))
  /\ let reported :=
       @walk_matches sample_lib (@ext_set sample_lib ["txt"])
         (@timestamp sample_lib (_start_date sample_new_finder))
         (@timestamp sample_lib (_end_date sample_new_finder)) sample_walk in
     exists out,
       _output_info_to (@resolved sample_lib sample_new_finder sample_world)
       = Some out
       /\ w_files (snd (@find_files sample_lib sample_new_finder sample_now sample_walk sample_world))
          !! path_join out "founded_table.txt"
          = Some (opened (w_files sample_world
                          !! path_join out "founded_table.txt")
                         (@starting_text sample_lib sample_now sample_new_finder)
                  +:+ text_of (map (fun i =>
                    "file=" +:+ item0 i +:+ " | "
                    +:+ "mtime=" +:+ @time_ctime sample_lib (item1 i) +:+ " | "
                    +:+ "ctime=" +:+ @time_ctime sample_lib (item2 i) +:+ " | "
                    +:+ "atime=" +:+ @time_ctime sample_lib (item3 i) +:+ nl) reported))
       /\ w_stdout (snd (@find_files sample_lib sample_new_finder sample_now sample_walk sample_world))
          = (w_stdout sample_world
             ++ ["Files founded: " +:+ pretty (length reported);
                 "Output info to: " +:+ out +:+ " folder"])%list.
Proof.
  assert (Hrun : @find_files sample_lib sample_new_finder sample_now sample_walk sample_world
                 = (Returned (@resolved sample_lib sample_new_finder sample_world),
                    snd (@find_files sample_lib sample_new_finder sample_now sample_walk sample_world)))
    by (vm_compute; reflexivity).
  split; [reflexivity|]. split; [exact Hrun|].
  exact (@run_with_filter_writes_primary_report sample_lib sample_new_finder
           (@ext_set sample_lib ["txt"]) sample_now sample_walk sample_world
           _ _ eq_refl Hrun).
Defined.

Lemma run_with_filter_writes_sorted_reports_witness :
  _extensions sample_new_finder = Some (@ext_set sample_lib ["txt"])
  /\ _sort_info sample_new_finder = true
  /\ @find_files sample_lib sample_new_finder sample_now sample_walk sample_world
     = (Returned (@resolved sample_lib sample_new_finder sample_world),
        snd (@find_files sample_lib sample_new_finder sample_now sample_walk sample_world))
  /\ let reported :=
       @walk_matches sample_lib (@ext_set sample_lib ["txt"])
         (@timestamp sample_lib (_start_date sample_new_finder))
         (@timestamp sample_lib (_end_date sample_new_finder)) sample_walk in
     let sorted := list_sort reported in
     Permutation reported sorted
     /\ StronglySorted record_le sorted
     /\ exists out,
          _output_info_to (@resolved sample_lib sample_new_finder sample_world)
          = Some out
          /\ w_files (snd (@find_files sample_lib sample_new_finder sample_now sample_walk sample_world))
             !! path_join out "founded_table.txt"
             = Some (opened (w_files sample_world
                             !! path_join out "founded_table.txt")
                            (@starting_text sample_lib sample_now
                                            sample_new_finder)
                     +:+ text_of (map (fun i =>
                    "file=" +:+ item0 i +:+ " | "
                    +:+ "mtime=" +:+ @time_ctime sample_lib (item1 i) +:+ " | "
                    +:+ "ctime=" +:+ @time_ctime sample_lib (item2 i) +:+ " | "
                    +:+ "atime=" +:+ @time_ctime sample_lib (item3 i) +:+ nl) reported))
          /\ w_files (snd (@find_files sample_lib sample_new_finder sample_now sample_walk sample_world))
             !! path_join out "founded_list_sorted.txt"
             = Some (opened (w_files sample_world
                             !! path_join out "founded_list_sorted.txt")
                            (@header_lines sample_lib sample_now
                                           sample_new_finder +:+ nl +:+ nl)
                     +:+ match sorted with
                         | [] => nl +:+ nl
                         | _ =>
                           text_of (map (fun i =>
                             "file: " +:+ item0 i +:+ nl
                             +:+ "created: "
                             +:+ @time_ctime sample_lib (item2 i) +:+ nl
                             +:+ "modified: "
                             +:+ @time_ctime sample_lib (item1 i) +:+ nl
                             +:+ "accessed: "
                             +:+ @time_ctime sample_lib (item3 i) +:+ nl
                             +:+ nl) sorted)
                           +:+ nl
                         end)
          /\ w_files (snd (@find_files sample_lib sample_new_finder sample_now sample_walk sample_world))
             !! path_join out "founded_table_sorted.txt"
             = Some (opened (w_files sample_world
                             !! path_join out "founded_table_sorted.txt")
                            (@starting_text sample_lib sample_now
                                            sample_new_finder)
                     +:+ match sorted with
                         | [] => ""
                         | x :: rest =>
                           ("file=" +:+ item0 x +:+ "   |   "
                            +:+ "mtime=" +:+ @time_ctime sample_lib (item2 x)
                            +:+ "   |   "
                            +:+ "ctime=" +:+ @time_ctime sample_lib (item1 x)
                            +:+ "   |   "
                            +:+ "atime=" +:+ @time_ctime sample_lib (item3 x))
                           +:+ text_of (map (fun i =>
                                 nl +:+ "file=" +:+ item0 i +:+ "   |   "
                                 +:+ "mtime=" +:+ @time_ctime sample_lib (item2 i)
                                 +:+ "   |   "
                                 +:+ "ctime=" +:+ @time_ctime sample_lib (item1 i)
                                 +:+ "   |   "
                                 +:+ "atime=" +:+ @time_ctime sample_lib (item3 i))
                               rest)
                         end).
Proof.
  assert (Hrun : @find_files sample_lib sample_new_finder sample_now sample_walk sample_world
                 = (Returned (@resolved sample_lib sample_new_finder sample_world),
                    snd (@find_files sample_lib sample_new_finder sample_now sample_walk sample_world)))
    by (vm_compute; reflexivity).
  split; [reflexivity|]. split; [reflexivity|]. split; [exact Hrun|].
  exact (@run_with_filter_writes_sorted_reports sample_lib sample_new_finder
           (@ext_set sample_lib ["txt"]) sample_now sample_walk sample_world
           _ _ eq_refl eq_refl Hrun).
Defined.

Lemma run_without_filter_stops_after_header_witness :
  _extensions sample_bare_finder = None
  /\ (exists d file,
        In d sample_walk /\ In file (d_files d) /\ is_there file = true)
  /\ fst (@find_files sample_lib sample_bare_finder sample_now sample_walk
                      sample_world) = Raised AttributeError
  /\ w_files (snd (@find_files sample_lib sample_bare_finder sample_now
                               sample_walk sample_world))
     !! path_join (@resolved_output sample_lib sample_bare_finder sample_world)
                  "founded_table.txt"
     = Some (opened (w_files sample_world
                     !! path_join (@resolved_output sample_lib
                                     sample_bare_finder sample_world)
                                  "founded_table.txt")
                    (@starting_text sample_lib sample_now sample_bare_finder))
  /\ (forall q,
        q <> path_join (@resolved_output sample_lib sample_bare_finder
                                         sample_world) "founded_table.txt" ->
        w_files (snd (@find_files sample_lib sample_bare_finder sample_now
                                  sample_walk sample_world)) !! q
        = w_files sample_world !! q)
  /\ w_stdout (snd (@find_files sample_lib sample_bare_finder sample_now
                                sample_walk sample_world))
     = w_stdout sample_world.
Proof.
  assert (Hthere : exists d file,
             In d sample_walk /\ In file (d_files d) /\ is_there file = true).
  { apply (proj1 (some_file_there_spec sample_walk)). vm_compute. reflexivity. }
  split; [reflexivity|]. split; [exact Hthere|].
  exact (@run_without_filter_stops_after_header sample_lib sample_bare_finder
           sample_now sample_walk sample_world eq_refl Hthere).
Defined.

(** The report of the sample run that stops: the earlier content, three
    newlines and the header, and no line of a match. *)
Example sample_run_stops_after_header :
  w_files (snd (@find_files sample_lib sample_bare_finder sample_now sample_walk
                            sample_world)) !! "/r/founded_table.txt"
  = Some ("earlier run" +:+ nl +:+ nl +:+ nl +:+ nl
          +:+ @starting_text sample_lib sample_now sample_bare_finder).
Proof. vm_compute. reflexivity. Qed.

Section EmptyFilter.
Context {L : PyLib}.

Lemma walk_matches_unfiltered start_date end_date walk d file st :
  In d walk -> In file (d_files d) -> f_stat file = Some st ->
  In (mk_tuple (path_join (d_root d) (f_name file))
               (st_mtime st) (st_ctime st) (st_atime st))
     (walk_matches ∅ start_date end_date walk)
  <-> in_window start_date end_date (st_mtime st) (st_ctime st) (st_atime st)
      = true.
Proof.
  intros Hd Hf Hst. rewrite walk_matches_In. split.
  - intros (d' & file' & _ & _ & Hm). unfold file_match in Hm.
    destruct (f_stat file') as [st'|]; [|discriminate Hm].
    destruct (bool_decide (∅ <> ∅) && _); [discriminate Hm|].
    destruct (in_window _ _ _ _ _) eqn:Hw; [|discriminate Hm].
    injection Hm as _ Hm1 Hm2 Hm3. now rewrite <- Hm1, <- Hm2, <- Hm3.
  - intros Hw. exists d, file. split; [exact Hd|]. split; [exact Hf|].
    unfold file_match. rewrite Hst. cbn zeta.
    rewrite (bool_decide_eq_false_2 (∅ <> ∅)) by (intros H; now apply H).
    cbn [andb]. now rewrite Hw.
Qed.

(** X13.  An iterator that yields no extension (it is true as a value,
    unlike [None] and the empty list) leaves an empty filter set in the
    object.  The traversal then returns and reports a listed file that is
    there exactly when one of its timestamps is strictly inside the
    window, whatever its extension. *)
Theorem exhausted_iterator_accepts_every_extension now_start now_end root
    start_date end_date include_time output_info_to sort_info self walk
    write_file w :
  __init__ now_start now_end root start_date end_date include_time
           output_info_to (ExtIterator []) sort_info = Returned self ->
  _extensions self = Some ∅
  /\ exists reported,
       _walker self walk write_file w
       = (Returned (length reported,
                    if _sort_info self then Some reported else None),
          append_lines write_file (map tuple_line reported) w)
       /\ forall d file st,
            In d walk -> In file (d_files d) -> f_stat file = Some st ->
            (In (mk_tuple (path_join (d_root d) (f_name file))
                          (st_mtime st) (st_ctime st) (st_atime st)) reported
             <-> (timestamp (_start_date self) < st_mtime st
                  < timestamp (_end_date self))
                 \/ (timestamp (_start_date self) < st_ctime st
                     < timestamp (_end_date self))
                 \/ (timestamp (_start_date self) < st_atime st
                     < timestamp (_end_date self))).
Proof.
  intros Hinit. apply init_fields in Hinit as (He & _).
  cbn [ext_truthy ext_items] in He.
  change (ext_set []) with (∅ : gset string) in He.
  split; [exact He|].
  exists (walk_matches ∅ (timestamp (_start_date self))
                       (timestamp (_end_date self)) walk).
  split; [now apply walker_filtered|].
  intros d file st Hd Hf Hst.
  rewrite <- in_window_spec. now apply walk_matches_unfiltered.
Qed.

End EmptyFilter.

Lemma exhausted_iterator_accepts_every_extension_witness :
  @__init__ sample_lib sample_now sample_now (Some "/r") None None false
            None (ExtIterator []) true
  = Returned (mk_finder (Some "/r") None (mk_datetime 738162 0 0 0 0)
                        (mk_datetime 738169 23 59 59 0) true (Some ∅))
  /\ fst (@_walker sample_lib
            (mk_finder (Some "/r") None (mk_datetime 738162 0 0 0 0)
                       (mk_datetime 738169 23 59 59 0) true (Some ∅))
            sample_walk "/r/founded_table.txt" (empty_world "/r"))
     = Returned (2%nat,
                 Some [sample_tuple;
                       mk_tuple "/r/notes" 1642154400000000 1642068000000000
                                1642158000000000])
  /\ _extensions (mk_finder (Some "/r") None (mk_datetime 738162 0 0 0 0)
                            (mk_datetime 738169 23 59 59 0) true (Some ∅))
     = Some ∅
  /\ exists reported,
       @_walker sample_lib
          (mk_finder (Some "/r") None (mk_datetime 738162 0 0 0 0)
                     (mk_datetime 738169 23 59 59 0) true (Some ∅))
          sample_walk "/r/founded_table.txt" (empty_world "/r")
       = (Returned (length reported, Some reported),
          append_lines "/r/founded_table.txt"
                       (map (@tuple_line sample_lib) reported) (empty_world "/r"))
       /\ forall d file st,
            In d sample_walk -> In file (d_files d) -> f_stat file = Some st ->
            (In (mk_tuple (path_join (d_root d) (f_name file))
                          (st_mtime st) (st_ctime st) (st_atime st)) reported
             <-> (@timestamp sample_lib (mk_datetime 738162 0 0 0 0) < st_mtime st
                  < @timestamp sample_lib (mk_datetime 738169 23 59 59 0))
                 \/ (@timestamp sample_lib (mk_datetime 738162 0 0 0 0) < st_ctime st
                     < @timestamp sample_lib (mk_datetime 738169 23 59 59 0))
                 \/ (@timestamp sample_lib (mk_datetime 738162 0 0 0 0) < st_atime st
                     < @timestamp sample_lib (mk_datetime 738169 23 59 59 0))).
Proof.
  assert (Hinit : @__init__ sample_lib sample_now sample_now (Some "/r") None
                            None false None (ExtIterator []) true
                  = Returned (mk_finder (Some "/r") None
                                        (mk_datetime 738162 0 0 0 0)
                                        (mk_datetime 738169 23 59 59 0)
                                        true (Some ∅)))
    by (vm_compute; reflexivity).
  split; [exact Hinit|]. split; [vm_compute; reflexivity|].
  exact (@exhausted_iterator_accepts_every_extension sample_lib sample_now
           sample_now (Some "/r") None None false None true _ sample_walk
           "/r/founded_table.txt" (empty_world "/r") Hinit).
Defined.
